(** * CarStore: the CRUD handlers of [main.go] and their HTTP contract

    The service is a thin layer between gin (HTTP) and a MongoDB
    collection.  The handlers are embedded as programs over the two
    interfaces they talk to, [*gin.Context] and [*mongo.Collection]; running
    a program against a request and a collection yields the responses
    made, the storage calls made and the new state of the collection. *)

From Stdlib Require Import String Ascii List ZArith NArith Bool Lia.
From Stdlib Require Import Strings.Byte Floats.SpecFloat.
Import ListNotations.
Open Scope string_scope.
Open Scope list_scope.

Set Implicit Arguments.

(** ** Go values *)

(** Go's [error] interface, by its message. *)
Definition error := string.

(** A call that returns [(A, error)]. *)
Inductive result (A : Type) : Type :=
| Ok (a : A)
| Err (e : error).
Arguments Ok {A} a.
Arguments Err {A} e.

(** A Go slice; [None] is the nil slice of [var s []T]. *)
Definition slice (A : Type) := option (list A).

(** [append(s, x)] *)
Definition append {A : Type} (s : slice A) (x : A) : slice A :=
  match s with
  | None => Some [x]
  | Some l => Some (l ++ [x])
  end.

(** [float64], as its IEEE 754 value. *)
Definition float64 := spec_float.

(** ** package primitive: ObjectID *)

Module primitive.

(** [type ObjectID [12]byte] *)
Definition ObjectID : Type :=
  (byte * byte * byte * byte * byte * byte *
   byte * byte * byte * byte * byte * byte)%type.

Definition NilObjectID : ObjectID :=
  (x00, x00, x00, x00, x00, x00, x00, x00, x00, x00, x00, x00).

Definition eqb (a b : ObjectID) : bool :=
  let '(a0, a1, a2, a3, a4, a5, a6, a7, a8, a9, a10, a11) := a in
  let '(b0, b1, b2, b3, b4, b5, b6, b7, b8, b9, b10, b11) := b in
  Byte.eqb a0 b0 && Byte.eqb a1 b1 && Byte.eqb a2 b2 && Byte.eqb a3 b3 &&
  Byte.eqb a4 b4 && Byte.eqb a5 b5 && Byte.eqb a6 b6 && Byte.eqb a7 b7 &&
  Byte.eqb a8 b8 && Byte.eqb a9 b9 && Byte.eqb a10 b10 && Byte.eqb a11 b11.

(** [id.IsZero()] *)
Definition IsZero (id : ObjectID) : bool := eqb id NilObjectID.

Definition hexdigit (n : N) : ascii :=
  match n with
  | 0 => "0" | 1 => "1" | 2 => "2" | 3 => "3" | 4 => "4" | 5 => "5"
  | 6 => "6" | 7 => "7" | 8 => "8" | 9 => "9" | 10 => "a" | 11 => "b"
  | 12 => "c" | 13 => "d" | 14 => "e" | _ => "f"
  end%N%char.

(** One hexadecimal digit, either case, as [encoding/hex] reads it. *)
Definition unhex (c : ascii) : option N :=
  let n := N_of_ascii c in
  if ((48 <=? n) && (n <=? 57))%N then Some (n - 48)%N
  else if ((97 <=? n) && (n <=? 102))%N then Some (n - 87)%N
  else if ((65 <=? n) && (n <=? 70))%N then Some (n - 55)%N
  else None.

Definition hex2 (b : byte) (rest : string) : string :=
  let n := Byte.to_N b in
  String (hexdigit (n / 16)%N) (String (hexdigit (n mod 16)%N) rest).

Definition unhex2 (hi lo : ascii) : option byte :=
  match unhex hi, unhex lo with
  | Some h, Some l => Byte.of_N (16 * h + l)%N
  | _, _ => None
  end.

(** [id.Hex()]: 24 lower-case hexadecimal digits. *)
Definition Hex (id : ObjectID) : string :=
  let '(b0, b1, b2, b3, b4, b5, b6, b7, b8, b9, b10, b11) := id in
  hex2 b0 (hex2 b1 (hex2 b2 (hex2 b3 (hex2 b4 (hex2 b5 (hex2 b6 (hex2 b7
    (hex2 b8 (hex2 b9 (hex2 b10 (hex2 b11 "" ))))))))))).

Definition ErrInvalidHex : error :=
  "the provided hex string is not a valid ObjectID".

Fixpoint decodeHex (s : string) : option (list byte) :=
  match s with
  | "" => Some []
  | String hi (String lo rest) =>
      match unhex2 hi lo, decodeHex rest with
      | Some b, Some bs => Some (b :: bs)
      | _, _ => None
      end
  | String _ "" => None
  end.

(** [ObjectIDFromHex(s)]: exactly 24 hexadecimal digits. *)
Definition ObjectIDFromHex (s : string) : result ObjectID :=
  if negb (Nat.eqb (String.length s) 24) then Err ErrInvalidHex
  else
    match decodeHex s with
    | Some [b0; b1; b2; b3; b4; b5; b6; b7; b8; b9; b10; b11] =>
        Ok (b0, b1, b2, b3, b4, b5, b6, b7, b8, b9, b10, b11)
    | _ => Err "encoding/hex: invalid byte"
    end.

End primitive.

(** ** The entity (main.go, [type Car struct]) *)

Record Car : Type := mkCar {
  ID    : primitive.ObjectID;
  Make  : string;
  Model : string;
  Year  : Z;
  Price : float64
}.

(** The zero value of [var car Car]. *)
Definition zeroCar : Car :=
  mkCar primitive.NilObjectID "" "" 0 (S754_zero false).

Definition setID (car : Car) (id : primitive.ObjectID) : Car :=
  mkCar id (Make car) (Model car) (Year car) (Price car).

(** ** package bson: documents *)

Module bson.

#[warnings="-register-all"] Inductive Value : Type :=
| VObjectID (id : primitive.ObjectID)
| VString (s : string)
| VInt (z : Z)
| VDouble (f : float64)
| VDoc (d : list (string * Value)).

(** [bson.M] and raw documents: key/value pairs.  The handlers only build
    documents with distinct literal keys. *)
Definition M := list (string * Value).

Fixpoint lookup (k : string) (d : M) : option Value :=
  match d with
  | [] => None
  | (k', v) :: d' => if String.eqb k' k then Some v else lookup k d'
  end.

(** The encoding of a [Car] under its struct tags:
    [bson:"_id,omitempty"], [bson:"make"], [bson:"model"], [bson:"year"],
    [bson:"price"]. *)
Definition marshalCar (car : Car) : M :=
  (if primitive.IsZero (ID car) then [] else [("_id", VObjectID (ID car))]) ++
  [("make", VString (Make car)); ("model", VString (Model car));
   ("year", VInt (Year car)); ("price", VDouble (Price car))].

Definition decodeField (car : Car) (kv : string * Value) : result Car :=
  let (k, v) := kv in
  if String.eqb k "_id" then
    match v with
    | VObjectID id => Ok (setID car id)
    | _ => Err "cannot decode into an ObjectID"
    end
  else if String.eqb k "make" then
    match v with
    | VString s => Ok (mkCar (ID car) s (Model car) (Year car) (Price car))
    | _ => Err "cannot decode into a string type"
    end
  else if String.eqb k "model" then
    match v with
    | VString s => Ok (mkCar (ID car) (Make car) s (Year car) (Price car))
    | _ => Err "cannot decode into a string type"
    end
  else if String.eqb k "year" then
    match v with
    | VInt z => Ok (mkCar (ID car) (Make car) (Model car) z (Price car))
    | _ => Err "cannot decode into an integer type"
    end
  else if String.eqb k "price" then
    match v with
    | VDouble f => Ok (mkCar (ID car) (Make car) (Model car) (Year car) f)
    | VInt z =>
        Ok (mkCar (ID car) (Make car) (Model car) (Year car)
              (binary_normalize 53 1024 z 0 false))
    | _ => Err "cannot decode into a float32 or float64 type"
    end
  else Ok car.

(** Decoding a document into [car] under the same tags, exact for the
    documents [marshalCar] produces.  On other documents the driver's
    decoder is more lenient than this one (it also matches keys ignoring
    case and converts between some value types); the properties of the
    handlers are stated for documents the service wrote, or hold whatever
    a document decodes to. *)
Fixpoint unmarshalCar (d : M) (car : Car) : result Car :=
  match d with
  | [] => Ok car
  | kv :: d' =>
      match decodeField car kv with
      | Ok car' => unmarshalCar d' car'
      | Err e => Err e
      end
  end.

End bson.

(** ** JSON, as written to the wire *)

#[warnings="-register-all"] Inductive json : Type :=
| JNull
| JString (s : string)
| JInt (z : Z)
| JFloat (f : float64)
| JArray (l : list json)
| JObject (l : list (string * json)).

(** [json:"id"], [json:"make"], [json:"model"], [json:"year"],
    [json:"price"]; an ObjectID is written as its hex string. *)
Definition carJSON (car : Car) : json :=
  JObject [("id", JString (primitive.Hex (ID car)));
           ("make", JString (Make car)); ("model", JString (Model car));
           ("year", JInt (Year car)); ("price", JFloat (Price car))].

(** ** package net/http *)

Module http.
Definition StatusOK : Z := 200.
Definition StatusCreated : Z := 201.
Definition StatusNoContent : Z := 204.
Definition StatusBadRequest : Z := 400.
Definition StatusNotFound : Z := 404.
Definition StatusInternalServerError : Z := 500.
End http.

(** ** package context *)

Record Context : Type := { timeout_ns : Z }.

(** [context.WithTimeout(context.Background(), 10*time.Second)].  The
    cancel function only releases the timer; it is not modelled. *)
Definition createTimeout : Context := {| timeout_ns := 10 * 1000000000 |}.

(** ** package gin: the request context *)

Module gin.

(** The values the handlers hand to [c.JSON]. *)
Inductive Body : Type :=
| H (kv : list (string * string))      (* gin.H{"error": ...} *)
| OfCar (car : Car)
| OfCars (cars : slice Car).

Definition encode (b : Body) : json :=
  match b with
  | H kv => JObject (map (fun p => (fst p, JString (snd p))) kv)
  | OfCar car => carJSON car
  | OfCars None => JNull
  | OfCars (Some l) => JArray (map carJSON l)
  end.

Inductive Op : Type -> Type :=
| Param (key : string) : Op string
| ShouldBindJSON (car : Car) : Op (Car * option error)
| JSON (code : Z) (obj : Body) : Op unit
| Status (code : Z) : Op unit.

(** What a handler can observe of a request: the path parameters, and what
    decoding the body does to the [Car] it is bound to. *)
Record Request : Type := {
  params : list (string * string);
  bind   : Car -> Car * option error
}.

(** A response as the handler makes it: the status, and the value it
    hands to [c.JSON] to be encoded as the body ([None] for [c.Status]). *)
Record Response : Type := {
  code : Z;
  body : option Body
}.

Fixpoint param (key : string) (ps : list (string * string)) : string :=
  match ps with
  | [] => ""
  | (k, v) :: ps' => if String.eqb k key then v else param key ps'
  end.

(** One call on the context: its answer and the responses it makes. *)
Definition step (req : Request) (X : Type) (op : Op X) : X * list Response :=
  match op in Op X return X * list Response with
  | Param key => (param key (params req), [])
  | ShouldBindJSON car => (bind req car, [])
  | JSON c obj => (tt, [{| code := c; body := Some obj |}])
  | Status c => (tt, [{| code := c; body := None |}])
  end.

End gin.

(** ** package mongo: the collection interface *)

Module mongo.

Definition ErrNoDocuments : error := "mongo: no documents in result".

(** A cursor over the documents a query selected. *)
Record Cursor : Type := { batch : list bson.M }.

(** [InsertedID] is an [interface{}]. *)
Record InsertOneResult : Type := { InsertedID : bson.Value }.
Record UpdateResult : Type := { MatchedCount : Z }.
Record DeleteResult : Type := { DeletedCount : Z }.

(** [*SingleResult]: the error of the query, or the raw document. *)
Definition SingleResult := result bson.M.

(** [sr.Decode(&car)] *)
Definition Decode (sr : SingleResult) (car : Car) : Car * option error :=
  match sr with
  | Err e => (car, Some e)
  | Ok doc =>
      match bson.unmarshalCar doc car with
      | Ok car' => (car', None)
      | Err e => (car, Some e)
      end
  end.

Inductive Op : Type -> Type :=
| Find (ctx : Context) (filter : bson.M) : Op (result Cursor)
| All (cur : Cursor) (ctx : Context) (cars : slice Car)
    : Op (slice Car * option error)
| Close (cur : Cursor) (ctx : Context) : Op unit
| InsertOne (ctx : Context) (document : Car) : Op (result InsertOneResult)
| FindOne (ctx : Context) (filter : bson.M) : Op SingleResult
| UpdateOne (ctx : Context) (filter update : bson.M) : Op (result UpdateResult)
| DeleteOne (ctx : Context) (filter : bson.M) : Op (result DeleteResult).

(** A storage collaborator over states [S]: any implementation of the
    calls above. *)
Record Collection (S : Type) : Type := {
  answer : forall X : Type, Op X -> S -> X * S
}.

Inductive Call : Type :=
| Called (X : Type) (op : Op X).

End mongo.

(** ** Handler programs *)

(** A handler is a sequence of calls on the gin context and on the
    collection; a failed type assertion panics. *)
Inductive Prog (A : Type) : Type :=
| Ret (a : A)
| Panic (msg : string)
| Gin (X : Type) (op : gin.Op X) (k : X -> Prog A)
| Mongo (X : Type) (op : mongo.Op X) (k : X -> Prog A).
Arguments Ret {A} a.
Arguments Panic {A} msg.
Arguments Gin {A X} op k.
Arguments Mongo {A X} op k.

Fixpoint bind {A B : Type} (p : Prog A) (f : A -> Prog B) : Prog B :=
  match p with
  | Ret a => f a
  | Panic msg => Panic msg
  | Gin op k => Gin op (fun x => bind (k x) f)
  | Mongo op k => Mongo op (fun x => bind (k x) f)
  end.

Definition c {X : Type} (op : gin.Op X) : Prog X := Gin op Ret.
Definition collection {X : Type} (op : mongo.Op X) : Prog X := Mongo op Ret.

Notation "x <- p ;; q" := (bind p (fun x => q))
  (at level 61, p at next level, right associativity).
Notation "' pat <- p ;; q" := (bind p (fun x => let 'pat := x in q))
  (at level 61, pat pattern, p at next level, right associativity).
Notation "p ;; q" := (bind p (fun _ => q))
  (at level 61, right associativity).

(** [v.(primitive.ObjectID)], the unchecked type assertion. *)
Definition assertObjectID (v : bson.Value) : Prog primitive.ObjectID :=
  match v with
  | bson.VObjectID id => Ret id
  | _ => Panic "interface conversion: interface {} is not primitive.ObjectID"
  end.

Definition errorBody (msg : string) : gin.Body := gin.H [("error", msg)].

(** [func (h *CarHandler) getAllCars(c *gin.Context)] *)
Definition getAllCars : Prog unit :=
  let ctx := createTimeout in
  let cars : slice Car := None in
  r <- collection (mongo.Find ctx []) ;;
  match r with
  | Err _ =>
      c (gin.JSON http.StatusInternalServerError (errorBody "Failed to fetch cars"))
  | Ok cursor =>
      (* defer cursor.Close(ctx) *)
      '(cars, err) <- collection (mongo.All cursor ctx cars) ;;
      match err with
      | Some _ =>
          c (gin.JSON http.StatusInternalServerError (errorBody "Failed to load cars")) ;;
          collection (mongo.Close cursor ctx)
      | None =>
          c (gin.JSON http.StatusOK (gin.OfCars cars)) ;;
          collection (mongo.Close cursor ctx)
      end
  end.

(** [func (h *CarHandler) addCar(c *gin.Context)] *)
Definition addCar : Prog unit :=
  let ctx := createTimeout in
  '(car, err) <- c (gin.ShouldBindJSON zeroCar) ;;
  match err with
  | Some _ =>
      c (gin.JSON http.StatusBadRequest (errorBody "Invalid car data"))
  | None =>
      r <- collection (mongo.InsertOne ctx car) ;;
      match r with
      | Err _ =>
          c (gin.JSON http.StatusInternalServerError (errorBody "Failed to add car"))
      | Ok result =>
          id <- assertObjectID (mongo.InsertedID result) ;;
          let car := setID car id in
          c (gin.JSON http.StatusCreated (gin.OfCar car))
      end
  end.

(** [func (h *CarHandler) getCarByID(c *gin.Context)] *)
Definition getCarByID : Prog unit :=
  let ctx := createTimeout in
  s <- c (gin.Param "id") ;;
  match primitive.ObjectIDFromHex s with
  | Err _ =>
      c (gin.JSON http.StatusBadRequest (errorBody "Invalid car ID"))
  | Ok id =>
      sr <- collection (mongo.FindOne ctx [("_id", bson.VObjectID id)]) ;;
      let '(car, err) := mongo.Decode sr zeroCar in
      match err with
      | Some _ =>
          c (gin.JSON http.StatusNotFound (errorBody "Car not found"))
      | None =>
          c (gin.JSON http.StatusOK (gin.OfCar car))
      end
  end.

(** The update document of [updateCar]. *)
Definition updateDoc (car : Car) : bson.M :=
  [("$set", bson.VDoc [("make", bson.VString (Make car));
                       ("model", bson.VString (Model car));
                       ("year", bson.VInt (Year car));
                       ("price", bson.VDouble (Price car))])].

(** [func (h *CarHandler) updateCar(c *gin.Context)] *)
Definition updateCar : Prog unit :=
  let ctx := createTimeout in
  s <- c (gin.Param "id") ;;
  match primitive.ObjectIDFromHex s with
  | Err _ =>
      c (gin.JSON http.StatusBadRequest (errorBody "Invalid car ID"))
  | Ok id =>
      '(car, err) <- c (gin.ShouldBindJSON zeroCar) ;;
      match err with
      | Some _ =>
          c (gin.JSON http.StatusBadRequest (errorBody "Invalid car data"))
      | None =>
          let update := updateDoc car in
          r <- collection (mongo.UpdateOne ctx [("_id", bson.VObjectID id)] update) ;;
          match r with
          | Err _ =>
              c (gin.JSON http.StatusInternalServerError
                   (errorBody "Failed to update car"))
          | Ok result =>
              if Z.eqb (mongo.MatchedCount result) 0 then
                c (gin.JSON http.StatusNotFound (errorBody "Car not found"))
              else
                let car := setID car id in
                c (gin.JSON http.StatusOK (gin.OfCar car))
          end
      end
  end.

(** [func (h *CarHandler) deleteCar(c *gin.Context)] *)
Definition deleteCar : Prog unit :=
  let ctx := createTimeout in
  s <- c (gin.Param "id") ;;
  match primitive.ObjectIDFromHex s with
  | Err _ =>
      c (gin.JSON http.StatusBadRequest (errorBody "Invalid car ID"))
  | Ok id =>
      r <- collection (mongo.DeleteOne ctx [("_id", bson.VObjectID id)]) ;;
      match r with
      | Err _ =>
          c (gin.JSON http.StatusInternalServerError
               (errorBody "Failed to delete car"))
      | Ok result =>
          if Z.eqb (mongo.DeletedCount result) 0 then
            c (gin.JSON http.StatusNotFound (errorBody "Car not found"))
          else
            c (gin.Status http.StatusNoContent)
      end
  end.

(** ** Running a handler *)

(** What one run of a handler leaves behind.  A panic ends the run; what
    gin's recovery middleware does next is outside the handler. *)
Record Run (S : Type) : Type := {
  responses : list gin.Response;     (* made by the handler, in order *)
  calls     : list mongo.Call;       (* made on the collection, in order *)
  store     : S;                     (* the collection afterwards *)
  panicked  : bool
}.

Fixpoint exec {S A : Type} (h : mongo.Collection S) (req : gin.Request)
    (p : Prog A) (st : S) : Run S :=
  match p with
  | Ret _ =>
      {| responses := []; calls := []; store := st; panicked := false |}
  | Panic _ =>
      {| responses := []; calls := []; store := st; panicked := true |}
  | Gin op k =>
      let (x, out) := gin.step req op in
      let r := exec h req (k x) st in
      {| responses := out ++ responses r; calls := calls r;
         store := store r; panicked := panicked r |}
  | Mongo op k =>
      let (x, st') := mongo.answer h op st in
      let r := exec h req (k x) st' in
      {| responses := responses r; calls := mongo.Called op :: calls r;
         store := store r; panicked := panicked r |}
  end.

(** ** A reference collection

    An in-memory collection with the behaviour the handlers rely on from
    the driver and the server: documents kept in insertion order, [_id]
    unique, an ObjectID generated for a document inserted without one,
    [$set] assigning the listed fields.  While [down] holds an error every
    call fails with it (the server is unreachable, the deadline passed). *)

Module memdb.

Record State : Type := {
  docs   : list bson.M;
  nextID : N;
  down   : option error
}.

Definition byteOf (n : N) : byte :=
  match Byte.of_N (n mod 256)%N with
  | Some b => b
  | None => x00
  end.

(** The ObjectID generated from the counter, big-endian. *)
Definition NewObjectID (n : N) : primitive.ObjectID :=
  (byteOf (n / 256 ^ 11), byteOf (n / 256 ^ 10), byteOf (n / 256 ^ 9),
   byteOf (n / 256 ^ 8), byteOf (n / 256 ^ 7), byteOf (n / 256 ^ 6),
   byteOf (n / 256 ^ 5), byteOf (n / 256 ^ 4), byteOf (n / 256 ^ 3),
   byteOf (n / 256 ^ 2), byteOf (n / 256), byteOf n)%N.

(** Equality of scalar values; embedded documents never compare equal
    here (no handler filters on one). *)
Definition valueEqb (a b : bson.Value) : bool :=
  match a, b with
  | bson.VObjectID x, bson.VObjectID y => primitive.eqb x y
  | bson.VString x, bson.VString y => String.eqb x y
  | bson.VInt x, bson.VInt y => Z.eqb x y
  | bson.VDouble x, bson.VDouble y => SFeqb x y
  | _, _ => false
  end.

(** A document matches a filter when it has every listed field with the
    listed value; the empty filter matches every document. *)
Definition matches (filter doc : bson.M) : bool :=
  forallb (fun kv =>
             match bson.lookup (fst kv) doc with
             | Some v => valueEqb (snd kv) v
             | None => false
             end) filter.

Fixpoint setField (k : string) (v : bson.Value) (d : bson.M) : bson.M :=
  match d with
  | [] => [(k, v)]
  | (k', v') :: d' =>
      if String.eqb k' k then (k, v) :: d' else (k', v') :: setField k v d'
  end.

Definition applySet (fields doc : bson.M) : bson.M :=
  fold_left (fun d kv => setField (fst kv) (snd kv) d) fields doc.

(** The update operators understood: [$set] with a document. *)
Fixpoint applyUpdate (update doc : bson.M) : result bson.M :=
  match update with
  | [] => Ok doc
  | (op, arg) :: update' =>
      match String.eqb op "$set", arg with
      | true, bson.VDoc fields => applyUpdate update' (applySet fields doc)
      | _, _ => Err "Unknown modifier"
      end
  end.

(** Rewrites the first document that matches; [None] when none does. *)
Fixpoint updateFirst (filter : bson.M) (f : bson.M -> bson.M)
    (ds : list bson.M) : option (list bson.M) :=
  match ds with
  | [] => None
  | d :: ds' =>
      if matches filter d then Some (f d :: ds')
      else option_map (cons d) (updateFirst filter f ds')
  end.

(** Removes the first document that matches; [None] when none does. *)
Fixpoint deleteFirst (filter : bson.M) (ds : list bson.M)
    : option (list bson.M) :=
  match ds with
  | [] => None
  | d :: ds' =>
      if matches filter d then Some ds'
      else option_map (cons d) (deleteFirst filter ds')
  end.

(** Decoding the batch into the slots of a slice: a slot that exists is
    decoded into, a new one starts from the zero [Car]. *)
Fixpoint decodeAll (ds : list bson.M) (slots : list Car) : result (list Car) :=
  match ds with
  | [] => Ok []
  | d :: ds' =>
      let slot := match slots with [] => zeroCar | x :: _ => x end in
      match bson.unmarshalCar d slot, decodeAll ds' (tl slots) with
      | Ok car, Ok cars => Ok (car :: cars)
      | Err e, _ => Err e
      | _, Err e => Err e
      end
  end.

Definition Find (filter : bson.M) (st : State) : result mongo.Cursor * State :=
  match down st with
  | Some e => (Err e, st)
  | None => (Ok {| mongo.batch := List.filter (matches filter) (docs st) |}, st)
  end.

(** [cursor.All(ctx, &cars)]: the slice is grown by [append] only when a
    document arrives and is cut to the number of documents decoded, so a
    nil slice stays nil when the cursor is empty. *)
Definition All (cur : mongo.Cursor) (cars : slice Car) (st : State)
    : (slice Car * option error) * State :=
  match down st with
  | Some e => ((cars, Some e), st)
  | None =>
      match decodeAll (mongo.batch cur)
              (match cars with None => [] | Some l => l end) with
      | Err e => ((cars, Some e), st)
      | Ok [] => ((option_map (fun _ => []) cars, None), st)
      | Ok l => ((Some l, None), st)
      end
  end.

Definition InsertOne (document : Car) (st : State)
    : result mongo.InsertOneResult * State :=
  match down st with
  | Some e => (Err e, st)
  | None =>
      let doc := bson.marshalCar document in
      let '(id, doc', next) :=
        match bson.lookup "_id" doc with
        | Some v => (v, doc, nextID st)
        | None =>
            let v := bson.VObjectID (NewObjectID (nextID st)) in
            (v, ("_id", v) :: doc, N.succ (nextID st))
        end in
      if existsb (matches [("_id", id)]) (docs st) then
        (Err "E11000 duplicate key error",
         {| docs := docs st; nextID := next; down := None |})
      else
        (Ok {| mongo.InsertedID := id |},
         {| docs := docs st ++ [doc']; nextID := next; down := None |})
  end.

Definition FindOne (filter : bson.M) (st : State) : mongo.SingleResult * State :=
  match down st with
  | Some e => (Err e, st)
  | None =>
      match List.find (matches filter) (docs st) with
      | Some d => (Ok d, st)
      | None => (Err mongo.ErrNoDocuments, st)
      end
  end.

Definition UpdateOne (filter update : bson.M) (st : State)
    : result mongo.UpdateResult * State :=
  match down st with
  | Some e => (Err e, st)
  | None =>
      match applyUpdate update [] with
      | Err e => (Err e, st)
      | Ok _ =>
          let f d := match applyUpdate update d with Ok d' => d' | Err _ => d end in
          match updateFirst filter f (docs st) with
          | None => (Ok {| mongo.MatchedCount := 0 |}, st)
          | Some ds =>
              (Ok {| mongo.MatchedCount := 1 |},
               {| docs := ds; nextID := nextID st; down := None |})
          end
      end
  end.

Definition DeleteOne (filter : bson.M) (st : State)
    : result mongo.DeleteResult * State :=
  match down st with
  | Some e => (Err e, st)
  | None =>
      match deleteFirst filter (docs st) with
      | None => (Ok {| mongo.DeletedCount := 0 |}, st)
      | Some ds =>
          (Ok {| mongo.DeletedCount := 1 |},
           {| docs := ds; nextID := nextID st; down := None |})
      end
  end.

Definition answer (X : Type) (op : mongo.Op X) (st : State) : X * State :=
  match op in mongo.Op X return X * State with
  | mongo.Find _ filter => Find filter st
  | mongo.All cur _ cars => All cur cars st
  | mongo.Close _ _ => (tt, st)
  | mongo.InsertOne _ document => InsertOne document st
  | mongo.FindOne _ filter => FindOne filter st
  | mongo.UpdateOne _ filter update => UpdateOne filter update st
  | mongo.DeleteOne _ filter => DeleteOne filter st
  end.

Definition handle : mongo.Collection State := {| mongo.answer := answer |}.

Definition empty : State := {| docs := []; nextID := 1; down := None |}.

(** The same collection, unreachable: every call fails with [e]. *)
Definition outage (e : error) (st : State) : State :=
  {| docs := docs st; nextID := nextID st; down := Some e |}.

End memdb.

(** ** Sample requests *)

(** The fields a JSON object body sets; fields it leaves out keep the
    value the bound [Car] had. *)
Inductive Field : Type :=
| FId (id : primitive.ObjectID)
| FMake (s : string)
| FModel (s : string)
| FYear (z : Z)
| FPrice (f : float64).

Definition assign (car : Car) (f : Field) : Car :=
  match f with
  | FId id => setID car id
  | FMake s => mkCar (ID car) s (Model car) (Year car) (Price car)
  | FModel s => mkCar (ID car) (Make car) s (Year car) (Price car)
  | FYear z => mkCar (ID car) (Make car) (Model car) z (Price car)
  | FPrice f => mkCar (ID car) (Make car) (Model car) (Year car) f
  end.

Definition objectBody (fields : list Field) (car : Car) : Car * option error :=
  (fold_left assign fields car, None).

Definition badBody (car : Car) : Car * option error :=
  (car, Some "invalid character 'x' looking for beginning of value").

Definition request (id : string) (body : Car -> Car * option error)
    : gin.Request :=
  {| gin.params := [("id", id)]; gin.bind := body |}.

(** 19999.99 and 18999.99 as [float64]. *)
Definition price19999_99 : float64 := S754_finite false 5497555390100931 (-38).
Definition price18999_99 : float64 := S754_finite false 5222677483156931 (-38).

Definition corolla2020 : list Field :=
  [FMake "Toyota"; FModel "Corolla"; FYear 2020; FPrice price19999_99].
Definition corolla2021 : list Field :=
  [FMake "Toyota"; FModel "Corolla"; FYear 2021; FPrice price18999_99].

(** The first identifier the reference collection generates, and the
    collection after [corolla2020] was created in the empty one. *)
Definition oid1 : primitive.ObjectID := memdb.NewObjectID 1.

Definition oneCorolla : memdb.State :=
  store (exec memdb.handle (request "" (objectBody corolla2020)) addCar
           memdb.empty).

(** ** Vocabulary of the properties *)

Definition idParam (req : gin.Request) : result primitive.ObjectID :=
  primitive.ObjectIDFromHex (gin.param "id" (gin.params req)).

Definition byID (id : primitive.ObjectID) : bson.M :=
  [("_id", bson.VObjectID id)].

Definition jsonResponse (code : Z) (obj : gin.Body) : gin.Response :=
  {| gin.code := code; gin.body := Some obj |}.

Definition codes {S : Type} (r : Run S) : list Z := map gin.code (responses r).

(** A request no handler may take to storage: its handler reads the path
    identifier and that is malformed, or reads the body and that fails to
    decode. *)
Definition malformedFor (p : Prog unit) (req : gin.Request) : Prop :=
  (In p [getCarByID; updateCar; deleteCar] /\ exists e, idParam req = Err e) \/
  (In p [addCar; updateCar] /\
   exists car e, gin.bind req zeroCar = (car, Some e)).

(** The keys [updateCar] assigns. *)
Definition carFields : list string := ["make"; "model"; "year"; "price"].

(** Two documents that agree on every key outside [keys]. *)
Definition sameExcept (keys : list string) (d d' : bson.M) : Prop :=
  forall k, ~ In k keys -> bson.lookup k d' = bson.lookup k d.

(** What the update document of [updateCar] does to a stored document. *)
Definition setCarFields (car : Car) (d : bson.M) : bson.M :=
  memdb.setField "price" (bson.VDouble (Price car))
    (memdb.setField "year" (bson.VInt (Year car))
       (memdb.setField "model" (bson.VString (Model car))
          (memdb.setField "make" (bson.VString (Make car)) d))).

(** The [_id] of every document of the collection, in order. *)
Definition ids (st : memdb.State) : list (option bson.Value) :=
  map (bson.lookup "_id") (memdb.docs st).

(** The driver's contract for [InsertOne]: the identifier reported is the
    [_id] of the encoded document, or an ObjectID generated for a document
    that has none. *)
Definition reportsDocumentID {S : Type} (h : mongo.Collection S) : Prop :=
  forall ctx car st res st',
    mongo.answer h (mongo.InsertOne ctx car) st = (Ok res, st') ->
    match bson.lookup "_id" (bson.marshalCar car) with
    | Some v => mongo.InsertedID res = v
    | None => exists id, mongo.InsertedID res = bson.VObjectID id
    end.

(** ** What reaches the client *)

(** The [float64] values [encoding/json] accepts: not NaN, not infinite. *)
Definition finite (f : float64) : bool :=
  match f with
  | S754_zero _ | S754_finite _ _ _ => true
  | S754_infinity _ | S754_nan => false
  end.

(** The values [encoding/json] can encode: those without a NaN or an
    infinite price. *)
Definition encodable (obj : gin.Body) : bool :=
  match obj with
  | gin.H _ => true
  | gin.OfCar car => finite (Price car)
  | gin.OfCars None => true
  | gin.OfCars (Some cars) => forallb (fun car => finite (Price car)) cars
  end.

(** What the client receives for a response: the status, and the value
    whose JSON is the body, if a body is written.  [c.JSON] sets the status
    first and writes no body when the value cannot be encoded. *)
Definition sent (resp : gin.Response) : Z * option gin.Body :=
  (gin.code resp,
   match gin.body resp with
   | Some obj => if encodable obj then Some obj else None
   | None => None
   end).

(** ** The driver's side of an insert *)

Module driver.

(** What the driver works with: its ObjectID generator, the insert
    command of the server (which answers with a write error or none), and
    the other calls of the collection. *)
Record Env (S : Type) : Type := {
  NewObjectID   : S -> primitive.ObjectID * S;
  insertCommand : bson.M -> S -> option error * S;
  otherCalls    : mongo.Collection S
}.

(** [coll.InsertOne(ctx, document)]: the document is encoded and given a
    generated [_id] when it has none, then sent; the identifier reported
    is the [_id] of the document sent, it does not come from the server. *)
Definition InsertOne {S : Type} (env : Env S) (document : Car) (st : S)
    : result mongo.InsertOneResult * S :=
  let doc := bson.marshalCar document in
  let '(id, doc, st) :=
    match bson.lookup "_id" doc with
    | Some v => (v, doc, st)
    | None =>
        let (oid, st') := NewObjectID env st in
        (bson.VObjectID oid, ("_id", bson.VObjectID oid) :: doc, st')
    end in
  match insertCommand env doc st with
  | (Some err, st') => (Err err, st')
  | (None, st') => (Ok {| mongo.InsertedID := id |}, st')
  end.

Definition answer {S : Type} (env : Env S) (X : Type) (op : mongo.Op X)
    (st : S) : X * S :=
  match op in mongo.Op X return X * S with
  | mongo.InsertOne _ document => InsertOne env document st
  | mongo.Find ctx filter =>
      mongo.answer (otherCalls env) (mongo.Find ctx filter) st
  | mongo.All cur ctx cars =>
      mongo.answer (otherCalls env) (mongo.All cur ctx cars) st
  | mongo.Close cur ctx =>
      mongo.answer (otherCalls env) (mongo.Close cur ctx) st
  | mongo.FindOne ctx filter =>
      mongo.answer (otherCalls env) (mongo.FindOne ctx filter) st
  | mongo.UpdateOne ctx filter update =>
      mongo.answer (otherCalls env) (mongo.UpdateOne ctx filter update) st
  | mongo.DeleteOne ctx filter =>
      mongo.answer (otherCalls env) (mongo.DeleteOne ctx filter) st
  end.

(** The collection a handler set gets from the driver. *)
Definition collection {S : Type} (env : Env S) : mongo.Collection S :=
  {| mongo.answer := answer env |}.

End driver.

(** The reference collection, seen from the driver: its generator is the
    counter, its insert command refuses a document whose [_id] is taken. *)
Definition memdbEnv : driver.Env memdb.State :=
  {| driver.NewObjectID := fun st =>
       (memdb.NewObjectID (memdb.nextID st),
        {| memdb.docs := memdb.docs st; memdb.nextID := N.succ (memdb.nextID st);
           memdb.down := memdb.down st |});
     driver.insertCommand := fun doc st =>
       match memdb.down st with
       | Some e => (Some e, st)
       | None =>
           let dup :=
             match bson.lookup "_id" doc with
             | Some id => existsb (memdb.matches [("_id", id)]) (memdb.docs st)
             | None => false
             end in
           if dup then (Some "E11000 duplicate key error",
                        {| memdb.docs := memdb.docs st;
                           memdb.nextID := memdb.nextID st;
                           memdb.down := None |})
           else (None, {| memdb.docs := memdb.docs st ++ [doc];
                          memdb.nextID := memdb.nextID st;
                          memdb.down := None |})
       end;
     driver.otherCalls := memdb.handle |}.

(** ** Vocabulary of the further properties *)

(** The five handlers. *)
Definition handlers : list (Prog unit) :=
  [getAllCars; addCar; getCarByID; updateCar; deleteCar].

(** The context a storage call was made with. *)
Definition callContext (cl : mongo.Call) : Context :=
  match cl with
  | mongo.Called op =>
      match op with
      | mongo.Find ctx _ => ctx
      | mongo.All _ ctx _ => ctx
      | mongo.Close _ ctx => ctx
      | mongo.InsertOne ctx _ => ctx
      | mongo.FindOne ctx _ => ctx
      | mongo.UpdateOne ctx _ _ => ctx
      | mongo.DeleteOne ctx _ => ctx
      end
  end.

(** The calls that can change the collection. *)
Definition writes (cl : mongo.Call) : bool :=
  match cl with
  | mongo.Called op =>
      match op with
      | mongo.InsertOne _ _ | mongo.UpdateOne _ _ _ | mongo.DeleteOne _ _ => true
      | _ => false
      end
  end.



(** A collection whose one document has a year of the wrong type. *)
Definition badYear : memdb.State :=
  {| memdb.docs := [[("_id", bson.VObjectID oid1);
                     ("year", bson.VString "2020")]];
     memdb.nextID := 2; memdb.down := None |}.

(** A collection whose one document has an infinite price. *)
Definition infinitePrice : memdb.State :=
  {| memdb.docs := [[("_id", bson.VObjectID oid1);
                     ("make", bson.VString "Toyota");
                     ("model", bson.VString "Corolla");
                     ("year", bson.VInt 2020);
                     ("price", bson.VDouble (S754_infinity false))]];
     memdb.nextID := 2; memdb.down := None |}.

(** The document the collection holds for [car] under [id]. *)
Definition storedDoc (car : Car) (id : primitive.ObjectID) : bson.M :=
  [("_id", bson.VObjectID id);
   ("make", bson.VString (Make car)); ("model", bson.VString (Model car));
   ("year", bson.VInt (Year car)); ("price", bson.VDouble (Price car))].

(** Every document has an ObjectID as [_id], and no two have the same. *)
Definition uniqueIDs (st : memdb.State) : Prop :=
  exists l : list primitive.ObjectID,
    ids st = map (fun id => Some (bson.VObjectID id)) l /\ NoDup l.

(** ** Start-up (main.go, [Setup] and [main]) *)

Module startup.

(** [*mongo.Client], by the URI it was connected with. *)
Record Client : Type := { uri : string }.

(** [*mongo.Collection], by the names it was obtained with. *)
Record CollectionRef : Type := {
  client   : Client;
  database : string;
  name     : string
}.

(** [type CarHandler struct] *)
Record CarHandler : Type := { collection : CollectionRef }.

(** What the server answers to [mongo.Connect] and to [client.Ping]. *)
Record Server : Type := {
  connect : string -> result Client;
  ping    : Client -> option error
}.

Inductive Call : Type :=
| Connect (uri : string)
| Ping (cl : Client).

Definition URI : string := "mongodb://localhost:27018".

(** [func Setup()]: the handler set or the error, with the calls made. *)
Definition Setup (srv : Server) : result CarHandler * list Call :=
  match connect srv URI with
  | Err err => (Err err, [Connect URI])
  | Ok client =>
      match ping srv client with
      | Some err => (Err err, [Connect URI; Ping client])
      | None =>
          let collection :=
            {| client := client; database := "carstore"; name := "cars" |} in
          (Ok {| collection := collection |}, [Connect URI; Ping client])
      end
  end.

(** [cors.Config], the fields [main] sets. *)
Record CorsConfig : Type := {
  AllowOrigins : list string;
  AllowMethods : list string;
  AllowHeaders : list string
}.

Definition corsConfig : CorsConfig :=
  {| AllowOrigins := ["http://localhost:5173"];
     AllowMethods := ["GET"; "POST"; "PUT"; "DELETE"; "OPTIONS"];
     AllowHeaders := ["Origin"; "Content-Type"; "Authorization"] |}.

(** A registration [router.METHOD(pattern, handler)]. *)
Record Route : Type := {
  method  : string;
  pattern : string;
  handler : Prog unit
}.

(** The five registrations of [main], in order. *)
Definition routes : list Route :=
  [ {| method := "GET";    pattern := "/cars";    handler := getAllCars |};
    {| method := "POST";   pattern := "/cars";    handler := addCar |};
    {| method := "GET";    pattern := "/car/:id"; handler := getCarByID |};
    {| method := "PUT";    pattern := "/car/:id"; handler := updateCar |};
    {| method := "DELETE"; pattern := "/car/:id"; handler := deleteCar |} ].

(** What [main] does, in order. *)
Inductive Event : Type :=
| Called (cl : Call)
| Fatal (msg : string) (err : error)         (* log.Fatal: the process exits *)
| Default                                    (* gin.Default() *)
| Use (cfg : CorsConfig)                     (* router.Use(cors.New(...)) *)
| Handle (h : CarHandler) (rt : Route)       (* router.GET(...), ... *)
| Println (msg : string)
| Run (addr : string).                       (* router.Run(addr) *)

(** [func main()] *)
Definition main (srv : Server) : list Event :=
  let (r, cs) := Setup srv in
  map Called cs ++
  match r with
  | Err err => [Fatal "Failed to connect to MongoDB:" err]
  | Ok carHandler =>
      [Default; Use corsConfig] ++
      map (Handle carHandler) routes ++
      [Println "Server starting on http://localhost:8080"; Run ":8080"]
  end.

(** The segments of a path, split at every slash. *)
Fixpoint split (s : string) : list string :=
  match s with
  | "" => [""]
  | String ch s' =>
      if Ascii.eqb ch "/" then "" :: split s'
      else match split s' with
           | [] => [String ch ""]
           | seg :: rest => String ch seg :: rest
           end
  end.

(** Matching the segments of a pattern against those of a path: a
    segment [:name] takes one non-empty segment of the path and binds it,
    any other segment takes the same segment. *)
Fixpoint matchSegments (pat path : list string)
    : option (list (string * string)) :=
  match pat, path with
  | [], [] => Some []
  | String ":" name :: pat', seg :: path' =>
      if String.eqb seg "" then None
      else option_map (cons (name, seg)) (matchSegments pat' path')
  | p :: pat', seg :: path' =>
      if String.eqb p seg then matchSegments pat' path' else None
  | _, _ => None
  end.

(** The handler the router runs for a request line, with the path
    parameters it binds; [None] when no registration matches. *)
Fixpoint dispatchIn (rts : list Route) (m path : string)
    : option (Prog unit * list (string * string)) :=
  match rts with
  | [] => None
  | rt :: rts' =>
      if String.eqb (method rt) m then
        match matchSegments (split (pattern rt)) (split path) with
        | Some ps => Some (handler rt, ps)
        | None => dispatchIn rts' m path
        end
      else dispatchIn rts' m path
  end.

Definition dispatch : string -> string -> option (Prog unit * list (string * string)) :=
  dispatchIn routes.

(** A server that is up, and one that refuses connections. *)
Definition up : Server :=
  {| connect := fun u => Ok {| uri := u |}; ping := fun _ => None |}.
Definition refusing : Server :=
  {| connect := fun _ => Err "connection refused"; ping := fun _ => None |}.
Definition silent : Server :=
  {| connect := fun u => Ok {| uri := u |};
     ping := fun _ => Some "server selection timeout" |}.

End startup.

(** One HTTP request served by the router on a collection: the run of the
    handler it dispatches to, if any. *)
Definition serve {S : Type} (h : mongo.Collection S) (m path : string)
    (body : Car -> Car * option error) (st : S) : option (Run S) :=
  match startup.dispatch m path with
  | Some (p, ps) => Some (exec h {| gin.params := ps; gin.bind := body |} p st)
  | None => None
  end.

(** The path with the given segments. *)
Fixpoint join (l : list string) : string :=
  match l with
  | [] => ""
  | [s] => s
  | s :: l' => (s ++ "/" ++ join l')%string
  end.

(** A path segment: not empty, and without a slash. *)
Definition isSegment (s : string) : Prop :=
  s <> "" /\ startup.split s = [s].

(** * Properties *)

(** ** ObjectIDs and their hex form *)

Lemma byte_eqb_refl (b : byte) : Byte.eqb b b = true.
Proof. apply Byte.byte_dec_lb. reflexivity. Qed.

Lemma oid_eqb_refl (id : primitive.ObjectID) : primitive.eqb id id = true.
Proof.
  destruct id as [[[[[[[[[[[b0 b1] b2] b3] b4] b5] b6] b7] b8] b9] b10] b11].
  unfold primitive.eqb. rewrite !byte_eqb_refl. reflexivity.
Qed.

Lemma oid_eqb_eq (a b : primitive.ObjectID) :
  primitive.eqb a b = true -> a = b.
Proof.
  destruct a as [[[[[[[[[[[a0 a1] a2] a3] a4] a5] a6] a7] a8] a9] a10] a11].
  destruct b as [[[[[[[[[[[b0 b1] b2] b3] b4] b5] b6] b7] b8] b9] b10] b11].
  unfold primitive.eqb. rewrite !andb_true_iff. intros H.
  repeat match goal with
         | H : _ /\ _ |- _ => destruct H
         | H : Byte.eqb _ _ = true |- _ => apply Byte.byte_dec_bl in H; subst
         end.
  reflexivity.
Qed.

Lemma unhex2_hex2 (b : byte) (rest : string) :
  primitive.hex2 b rest =
    String (primitive.hexdigit (Byte.to_N b / 16)%N)
      (String (primitive.hexdigit (Byte.to_N b mod 16)%N) rest) /\
  primitive.unhex2 (primitive.hexdigit (Byte.to_N b / 16)%N)
                   (primitive.hexdigit (Byte.to_N b mod 16)%N) = Some b.
Proof. split; [reflexivity | destruct b; vm_compute; reflexivity]. Qed.

Lemma decodeHex_hex2 (b : byte) (rest : string) :
  primitive.decodeHex (primitive.hex2 b rest) =
    match primitive.decodeHex rest with
    | Some bs => Some (b :: bs)
    | None => None
    end.
Proof.
  destruct (unhex2_hex2 b rest) as [-> E].
  cbn [primitive.decodeHex]. rewrite E. reflexivity.
Qed.

(** The hex form of an ObjectID reads back as that ObjectID. *)
Lemma ObjectIDFromHex_Hex (id : primitive.ObjectID) :
  primitive.ObjectIDFromHex (primitive.Hex id) = Ok id.
Proof.
  destruct id as [[[[[[[[[[[b0 b1] b2] b3] b4] b5] b6] b7] b8] b9] b10] b11].
  unfold primitive.ObjectIDFromHex, primitive.Hex.
  rewrite !decodeHex_hex2. reflexivity.
Qed.

(** ** The status mapping, for any collection *)

(** Runs a handler up to its next answer, feeding it the equations at
    hand. *)
Ltac run_with E := cbn; rewrite E; cbn.

Section AnyCollection.

Variable S : Type.
Variable h : mongo.Collection S.
Variable req : gin.Request.
Variable st : S.

Lemma getCarByID_malformed e :
  idParam req = Err e ->
  exec h req getCarByID st =
    {| responses := [jsonResponse 400 (errorBody "Invalid car ID")];
       calls := []; store := st; panicked := false |}.
Proof. unfold idParam. intros E. run_with E. reflexivity. Qed.

Lemma updateCar_malformed e :
  idParam req = Err e ->
  exec h req updateCar st =
    {| responses := [jsonResponse 400 (errorBody "Invalid car ID")];
       calls := []; store := st; panicked := false |}.
Proof. unfold idParam. intros E. run_with E. reflexivity. Qed.

Lemma deleteCar_malformed e :
  idParam req = Err e ->
  exec h req deleteCar st =
    {| responses := [jsonResponse 400 (errorBody "Invalid car ID")];
       calls := []; store := st; panicked := false |}.
Proof. unfold idParam. intros E. run_with E. reflexivity. Qed.

Lemma addCar_undecodable car e :
  gin.bind req zeroCar = (car, Some e) ->
  exec h req addCar st =
    {| responses := [jsonResponse 400 (errorBody "Invalid car data")];
       calls := []; store := st; panicked := false |}.
Proof. intros E. run_with E. reflexivity. Qed.

Lemma updateCar_undecodable id car e :
  idParam req = Ok id ->
  gin.bind req zeroCar = (car, Some e) ->
  exec h req updateCar st =
    {| responses := [jsonResponse 400 (errorBody "Invalid car data")];
       calls := []; store := st; panicked := false |}.
Proof.
  unfold idParam. intros E1 E2. run_with E1. run_with E2. reflexivity.
Qed.

Lemma getCarByID_decoded id sr st' :
  idParam req = Ok id ->
  mongo.answer h (mongo.FindOne createTimeout (byID id)) st = (sr, st') ->
  exec h req getCarByID st =
    {| responses :=
         match mongo.Decode sr zeroCar with
         | (_, Some _) => [jsonResponse 404 (errorBody "Car not found")]
         | (car, None) => [jsonResponse 200 (gin.OfCar car)]
         end;
       calls := [mongo.Called (mongo.FindOne createTimeout (byID id))];
       store := st'; panicked := false |}.
Proof.
  unfold idParam, byID. intros E1 E2. cbn. rewrite E1. cbn. rewrite E2.
  destruct (mongo.Decode sr zeroCar) as [car [e|]]; reflexivity.
Qed.

Lemma addCar_inserted car res st' :
  gin.bind req zeroCar = (car, None) ->
  mongo.answer h (mongo.InsertOne createTimeout car) st = (res, st') ->
  exec h req addCar st =
    match res with
    | Err _ =>
        {| responses := [jsonResponse 500 (errorBody "Failed to add car")];
           calls := [mongo.Called (mongo.InsertOne createTimeout car)];
           store := st'; panicked := false |}
    | Ok result =>
        match mongo.InsertedID result with
        | bson.VObjectID id =>
            {| responses := [jsonResponse 201 (gin.OfCar (setID car id))];
               calls := [mongo.Called (mongo.InsertOne createTimeout car)];
               store := st'; panicked := false |}
        | _ =>
            {| responses := [];
               calls := [mongo.Called (mongo.InsertOne createTimeout car)];
               store := st'; panicked := true |}
        end
    end.
Proof.
  intros E1 E2. cbn. rewrite E1. cbn. rewrite E2.
  destruct res as [[[id| | | |]]|e]; reflexivity.
Qed.

Lemma updateCar_updated id car res st' :
  idParam req = Ok id ->
  gin.bind req zeroCar = (car, None) ->
  mongo.answer h (mongo.UpdateOne createTimeout (byID id) (updateDoc car)) st
    = (res, st') ->
  exec h req updateCar st =
    {| responses :=
         match res with
         | Err _ => [jsonResponse 500 (errorBody "Failed to update car")]
         | Ok result =>
             if Z.eqb (mongo.MatchedCount result) 0
             then [jsonResponse 404 (errorBody "Car not found")]
             else [jsonResponse 200 (gin.OfCar (setID car id))]
         end;
       calls := [mongo.Called
                   (mongo.UpdateOne createTimeout (byID id) (updateDoc car))];
       store := st'; panicked := false |}.
Proof.
  unfold idParam, byID. intros E1 E2 E3. cbn. rewrite E1. cbn. rewrite E2. cbn.
  fold (updateDoc car). rewrite E3.
  destruct res as [[n]|e]; cbn; [destruct (Z.eqb n 0)|]; reflexivity.
Qed.

Lemma deleteCar_deleted id res st' :
  idParam req = Ok id ->
  mongo.answer h (mongo.DeleteOne createTimeout (byID id)) st = (res, st') ->
  exec h req deleteCar st =
    {| responses :=
         match res with
         | Err _ => [jsonResponse 500 (errorBody "Failed to delete car")]
         | Ok result =>
             if Z.eqb (mongo.DeletedCount result) 0
             then [jsonResponse 404 (errorBody "Car not found")]
             else [{| gin.code := 204; gin.body := None |}]
         end;
       calls := [mongo.Called (mongo.DeleteOne createTimeout (byID id))];
       store := st'; panicked := false |}.
Proof.
  unfold idParam, byID. intros E1 E2. cbn. rewrite E1. cbn. rewrite E2.
  destruct res as [[n]|e]; cbn; [destruct (Z.eqb n 0)|]; reflexivity.
Qed.

Lemma getAllCars_listed res st1 :
  mongo.answer h (mongo.Find createTimeout []) st = (res, st1) ->
  responses (exec h req getAllCars st) =
    match res with
    | Err _ => [jsonResponse 500 (errorBody "Failed to fetch cars")]
    | Ok cursor =>
        match fst (mongo.answer h (mongo.All cursor createTimeout None) st1) with
        | (_, Some _) => [jsonResponse 500 (errorBody "Failed to load cars")]
        | (cars, None) => [jsonResponse 200 (gin.OfCars cars)]
        end
    end.
Proof.
  intros E. cbn. rewrite E. destruct res as [cursor|e]; [|reflexivity].
  cbn. destruct (mongo.answer h (mongo.All cursor createTimeout None) st1)
    as [[cars [e|]] st2]; cbn;
    destruct (mongo.answer h (mongo.Close cursor createTimeout) st2);
    reflexivity.
Qed.

End AnyCollection.

(** C4: a get, update or delete request with a malformed identifier, and a
    create or update request whose body fails to decode, is answered 400
    without a single call on the collection, which is left as it was. *)
Theorem malformed_request_never_reaches_storage :
  forall (S : Type) (h : mongo.Collection S) (req : gin.Request) (st : S)
         (p : Prog unit),
    malformedFor p req ->
    let r := exec h req p st in
    codes r = [http.StatusBadRequest] /\ calls r = [] /\ store r = st /\
    panicked r = false.
Proof.
  intros S h req st p [[Hin [e E]] | [Hin [car [e E]]]]; cbn [In] in Hin.
  - destruct Hin as [<- | [<- | [<- | []]]]; cbv zeta.
    + rewrite (getCarByID_malformed h req st E). repeat split.
    + rewrite (updateCar_malformed h req st E). repeat split.
    + rewrite (deleteCar_malformed h req st E). repeat split.
  - destruct Hin as [<- | [<- | []]]; cbv zeta.
    + rewrite (addCar_undecodable h req st E). repeat split.
    + destruct (idParam req) as [id|e'] eqn:Eid.
      * rewrite (updateCar_undecodable h req st Eid E). repeat split.
      * rewrite (updateCar_malformed h req st Eid). repeat split.
Qed.

Lemma malformed_request_never_reaches_storage_witness :
  malformedFor updateCar (request "not-a-valid-id" (objectBody corolla2021)) /\
  malformedFor addCar (request "" badBody) /\
  codes (exec memdb.handle (request "not-a-valid-id" (objectBody corolla2021))
           updateCar oneCorolla) = [400%Z] /\
  store (exec memdb.handle (request "" badBody) addCar oneCorolla) = oneCorolla.
Proof.
  assert (H1 : malformedFor updateCar
                 (request "not-a-valid-id" (objectBody corolla2021))).
  { left. split; [right; left; reflexivity | eexists; reflexivity]. }
  assert (H2 : malformedFor addCar (request "" badBody)).
  { right. split; [left; reflexivity | do 2 eexists; reflexivity]. }
  split; [exact H1 | split; [exact H2 | split]].
  - apply (malformed_request_never_reaches_storage memdb.handle oneCorolla H1).
  - apply (malformed_request_never_reaches_storage memdb.handle oneCorolla H2).
Defined.

(** C6: an update with a well-formed identifier and a decodable body is
    answered 500 when the storage call fails, 404 when it reports a matched
    count of zero, and otherwise 200 with a Car that carries the path
    identifier and the submitted make, model, year and price. *)
Theorem updateCar_outcome :
  forall (S : Type) (h : mongo.Collection S) (req : gin.Request) (st st' : S)
         (id : primitive.ObjectID) (car : Car) (res : result mongo.UpdateResult),
    idParam req = Ok id ->
    gin.bind req zeroCar = (car, None) ->
    mongo.answer h (mongo.UpdateOne createTimeout (byID id) (updateDoc car)) st
      = (res, st') ->
    let r := exec h req updateCar st in
    match res with
    | Err _ => codes r = [http.StatusInternalServerError]
    | Ok result =>
        (mongo.MatchedCount result = 0%Z -> codes r = [http.StatusNotFound]) /\
        (mongo.MatchedCount result <> 0%Z ->
         exists car',
           responses r = [jsonResponse http.StatusOK (gin.OfCar car')] /\
           ID car' = id /\ Make car' = Make car /\ Model car' = Model car /\
           Year car' = Year car /\ Price car' = Price car)
    end.
Proof.
  intros S h req st st' id car res E1 E2 E3. cbv zeta.
  rewrite (updateCar_updated h req st E1 E2 E3). unfold codes. cbn [responses].
  destruct res as [result|e]; [|reflexivity]. split; intros Hm.
  - rewrite Hm. reflexivity.
  - apply Z.eqb_neq in Hm. rewrite Hm. exists (setID car id).
    repeat split.
Qed.

Lemma updateCar_outcome_witness :
  let req := request (primitive.Hex oid1) (objectBody corolla2021) in
  idParam req = Ok oid1 /\
  gin.bind req zeroCar = (fold_left assign corolla2021 zeroCar, None) /\
  exists car',
    responses (exec memdb.handle req updateCar oneCorolla)
      = [jsonResponse 200 (gin.OfCar car')] /\
    ID car' = oid1 /\ Year car' = 2021%Z.
Proof.
  cbv zeta. split; [reflexivity | split; [reflexivity |]].
  pose proof (@updateCar_outcome _ memdb.handle
                (request (primitive.Hex oid1) (objectBody corolla2021))
                oneCorolla _ oid1 _ _ eq_refl eq_refl eq_refl) as H.
  cbv zeta in H. destruct H as [_ H].
  destruct H as [car' [H1 [H2 [_ [_ [H3 _]]]]]].
  - discriminate.
  - exists car'. repeat split; assumption.
Defined.

(** C7: a delete request is answered 400 when the identifier is malformed,
    500 when the storage call fails, 404 when it reports a deleted count of
    zero, and 204 without a body when it deleted the record. *)
Theorem deleteCar_outcome :
  forall (S : Type) (h : mongo.Collection S) (req : gin.Request) (st : S),
    let r := exec h req deleteCar st in
    (forall e, idParam req = Err e ->
       codes r = [http.StatusBadRequest] /\ calls r = []) /\
    (forall id res st',
       idParam req = Ok id ->
       mongo.answer h (mongo.DeleteOne createTimeout (byID id)) st = (res, st') ->
       match res with
       | Err _ => codes r = [http.StatusInternalServerError]
       | Ok result =>
           (mongo.DeletedCount result = 0%Z ->
            codes r = [http.StatusNotFound]) /\
           (mongo.DeletedCount result <> 0%Z ->
            responses r =
              [{| gin.code := http.StatusNoContent; gin.body := None |}])
       end).
Proof.
  intros S h req st. cbv zeta. split.
  - intros e E. rewrite (deleteCar_malformed h req st E). split; reflexivity.
  - intros id res st' E1 E2. rewrite (deleteCar_deleted h req st E1 E2).
    unfold codes. cbn [responses].
    destruct res as [result|e]; [|reflexivity]. split; intros Hd.
    + rewrite Hd. reflexivity.
    + apply Z.eqb_neq in Hd. rewrite Hd. reflexivity.
Qed.

Lemma deleteCar_outcome_witness :
  let req := request (primitive.Hex oid1) badBody in
  idParam req = Ok oid1 /\
  responses (exec memdb.handle req deleteCar oneCorolla) =
    [{| gin.code := 204; gin.body := None |}] /\
  codes (exec memdb.handle req deleteCar memdb.empty) = [404%Z] /\
  codes (exec memdb.handle req deleteCar (memdb.outage "server selection timeout" oneCorolla))
    = [500%Z].
Proof.
  cbv zeta. split; [reflexivity |].
  split; [| split].
  - pose proof (proj2 (@deleteCar_outcome _ memdb.handle
                  (request (primitive.Hex oid1) badBody) oneCorolla)
                  oid1 _ _ eq_refl eq_refl) as H.
    cbv zeta in H. apply (proj2 H). discriminate.
  - pose proof (proj2 (@deleteCar_outcome _ memdb.handle
                  (request (primitive.Hex oid1) badBody) memdb.empty)
                  oid1 _ _ eq_refl eq_refl) as H.
    cbv zeta in H. apply (proj1 H). reflexivity.
  - exact (proj2 (@deleteCar_outcome _ memdb.handle
                  (request (primitive.Hex oid1) badBody)
                  (memdb.outage "server selection timeout" oneCorolla))
                  oid1 _ _ eq_refl eq_refl).
Defined.

(** C8: a create request whose body fails to decode is answered 400 and
    nothing is inserted; one whose insert fails is answered 500; one whose
    insert succeeds is answered 201 with a Car whose ID is the identifier
    the collection assigned and whose make, model, year and price are those
    of the decoded body. *)
Theorem addCar_outcome :
  forall (S : Type) (h : mongo.Collection S) (req : gin.Request) (st : S),
    let r := exec h req addCar st in
    (forall car e, gin.bind req zeroCar = (car, Some e) ->
       codes r = [http.StatusBadRequest] /\ calls r = [] /\ store r = st) /\
    (forall car res st',
       gin.bind req zeroCar = (car, None) ->
       mongo.answer h (mongo.InsertOne createTimeout car) st = (res, st') ->
       calls r = [mongo.Called (mongo.InsertOne createTimeout car)] /\
       match res with
       | Err _ => codes r = [http.StatusInternalServerError]
       | Ok result =>
           forall id, mongo.InsertedID result = bson.VObjectID id ->
             exists created,
               responses r =
                 [jsonResponse http.StatusCreated (gin.OfCar created)] /\
               ID created = id /\
               Make created = Make car /\ Model created = Model car /\
               Year created = Year car /\ Price created = Price car
       end).
Proof.
  intros S h req st. cbv zeta. split.
  - intros car e E. rewrite (addCar_undecodable h req st E). repeat split.
  - intros car res st' E1 E2. rewrite (addCar_inserted h req st E1 E2).
    destruct res as [result|e]; [|split; reflexivity].
    split.
    + destruct (mongo.InsertedID result); reflexivity.
    + intros id ->. exists (setID car id). repeat split.
Qed.

Lemma addCar_outcome_witness :
  let req := request "" (objectBody corolla2020) in
  gin.bind req zeroCar = (fold_left assign corolla2020 zeroCar, None) /\
  responses (exec memdb.handle req addCar memdb.empty) =
    [jsonResponse 201
       (gin.OfCar (mkCar oid1 "Toyota" "Corolla" 2020 price19999_99))] /\
  codes (exec memdb.handle req addCar (memdb.outage "connection refused" memdb.empty))
    = [500%Z].
Proof.
  cbv zeta. split; [reflexivity |]. split.
  - destruct (proj2 (proj2 (@addCar_outcome _ memdb.handle
                   (request "" (objectBody corolla2020)) memdb.empty)
                 _ _ _ eq_refl eq_refl) oid1 eq_refl)
      as [[i mk md y p] [H [Hi [Hmk [Hmd [Hy Hp]]]]]].
    cbn in Hi, Hmk, Hmd, Hy, Hp. subst. exact H.
  - exact (proj2 (proj2 (@addCar_outcome _ memdb.handle
                   (request "" (objectBody corolla2020))
                   (memdb.outage "connection refused" memdb.empty))
                 _ _ _ eq_refl eq_refl)).
Defined.

(** ** The reference collection *)

Lemma lookup_id_marshalCar (car : Car) :
  bson.lookup "_id" (bson.marshalCar car) =
    if primitive.IsZero (ID car) then None else Some (bson.VObjectID (ID car)).
Proof.
  unfold bson.marshalCar. destruct (primitive.IsZero (ID car)); reflexivity.
Qed.

Lemma unmarshal_stored (car : Car) (id : primitive.ObjectID) :
  bson.unmarshalCar
    (("_id", bson.VObjectID id) ::
     [("make", bson.VString (Make car)); ("model", bson.VString (Model car));
      ("year", bson.VInt (Year car)); ("price", bson.VDouble (Price car))])
    zeroCar = Ok (setID car id).
Proof. destruct car. reflexivity. Qed.

Lemma matches_byID (id : primitive.ObjectID) (d : bson.M) :
  memdb.matches [("_id", bson.VObjectID id)] d =
    match bson.lookup "_id" d with
    | Some (bson.VObjectID id') => primitive.eqb id id'
    | _ => false
    end.
Proof.
  unfold memdb.matches. cbn.
  destruct (bson.lookup "_id" d) as [[]|]; cbn; try reflexivity.
  apply andb_true_r.
Qed.

Lemma matches_byID_head (id : primitive.ObjectID) (rest : bson.M) :
  memdb.matches [("_id", bson.VObjectID id)]
    (("_id", bson.VObjectID id) :: rest) = true.
Proof.
  rewrite matches_byID.
  replace (bson.lookup "_id" (("_id", bson.VObjectID id) :: rest))
    with (Some (bson.VObjectID id)) by reflexivity.
  apply oid_eqb_refl.
Qed.

Lemma find_app_last {A : Type} (p : A -> bool) (l : list A) (x : A) :
  existsb p l = false -> p x = true -> List.find p (l ++ [x]) = Some x.
Proof.
  induction l as [|a l IH]; cbn; intros Hl Hx.
  - rewrite Hx. reflexivity.
  - apply orb_false_iff in Hl. destruct Hl as [Ha Hl]. rewrite Ha. auto.
Qed.

(** A document that was inserted is the one found under the identifier
    the insert reported, and decodes to the Car inserted, with that
    identifier. *)
Lemma memdb_insert_then_find (st st' : memdb.State) (car : Car)
    (res : mongo.InsertOneResult) :
  memdb.InsertOne car st = (Ok res, st') ->
  exists id doc,
    mongo.InsertedID res = bson.VObjectID id /\
    memdb.FindOne (byID id) st' = (Ok doc, st') /\
    bson.unmarshalCar doc zeroCar = Ok (setID car id).
Proof.
  unfold memdb.InsertOne. destruct (memdb.down st) eqn:D; [discriminate|].
  rewrite lookup_id_marshalCar. unfold bson.marshalCar.
  destruct (primitive.IsZero (ID car)) eqn:Z; cbn [app];
    match goal with
    | |- context [existsb ?p ?l] => destruct (existsb p l) eqn:X
    end; intros E; inversion E; subst; clear E; cbn [mongo.InsertedID].
  - exists (memdb.NewObjectID (memdb.nextID st)). eexists.
    split; [reflexivity|]. split; [|apply unmarshal_stored].
    unfold memdb.FindOne, byID. cbn [memdb.down memdb.docs].
    rewrite (find_app_last _ _ _ X); [reflexivity|].
    apply matches_byID_head.
  - exists (ID car). eexists.
    split; [reflexivity|]. split; [|apply unmarshal_stored].
    unfold memdb.FindOne, byID. cbn [memdb.down memdb.docs].
    rewrite (find_app_last _ _ _ X); [reflexivity|].
    apply matches_byID_head.
Qed.

Lemma memdb_reportsDocumentID : reportsDocumentID memdb.handle.
Proof.
  intros ctx car st res st'. cbn. unfold memdb.InsertOne.
  destruct (memdb.down st); [discriminate|].
  destruct (bson.lookup "_id" (bson.marshalCar car)) as [v|];
    match goal with
    | |- context [existsb ?p ?l] => destruct (existsb p l)
    end; intros E; inversion E; subst; cbn; eauto.
Qed.

(** C3: when a create request with decoded payload [P] is answered 201 with
    the Car [created], a get for the identifier of [created] on the same
    collection is answered 200 with [created], and [created] has the make,
    model, year and price of [P]. *)
Theorem create_then_get_returns_payload :
  forall (st : memdb.State) (req1 req2 : gin.Request) (P created : Car),
    gin.bind req1 zeroCar = (P, None) ->
    let r1 := exec memdb.handle req1 addCar st in
    responses r1 = [jsonResponse http.StatusCreated (gin.OfCar created)] ->
    gin.param "id" (gin.params req2) = primitive.Hex (ID created) ->
    let r2 := exec memdb.handle req2 getCarByID (store r1) in
    responses r2 = [jsonResponse http.StatusOK (gin.OfCar created)] /\
    Make created = Make P /\ Model created = Model P /\
    Year created = Year P /\ Price created = Price P.
Proof.
  intros st req1 req2 P created EP r1 H201 Hid r2. subst r1 r2.
  destruct (memdb.InsertOne P st) as [res st'] eqn:EI.
  assert (EA : mongo.answer memdb.handle (mongo.InsertOne createTimeout P) st
               = (res, st')) by exact EI.
  rewrite (addCar_inserted memdb.handle req1 st EP EA) in *.
  destruct res as [result|e]; [|discriminate].
  destruct (memdb_insert_then_find _ _ EI) as [id [doc [Eid [EF ED]]]].
  rewrite Eid in *. cbn [responses store] in *.
  injection H201 as <-.
  assert (Eq : idParam req2 = Ok id).
  { unfold idParam. rewrite Hid. apply ObjectIDFromHex_Hex. }
  assert (EA2 : mongo.answer memdb.handle
                  (mongo.FindOne createTimeout (byID id)) st' = (Ok doc, st'))
    by exact EF.
  rewrite (getCarByID_decoded memdb.handle req2 st' Eq EA2).
  cbn [responses mongo.Decode]. rewrite ED.
  repeat split.
Qed.

Lemma create_then_get_returns_payload_witness :
  let req1 := request "" (objectBody corolla2020) in
  let created := setID (fold_left assign corolla2020 zeroCar) oid1 in
  let req2 := request (primitive.Hex oid1) badBody in
  gin.bind req1 zeroCar = (fold_left assign corolla2020 zeroCar, None) /\
  responses (exec memdb.handle req1 addCar memdb.empty) =
    [jsonResponse 201 (gin.OfCar created)] /\
  responses (exec memdb.handle req2 getCarByID oneCorolla) =
    [jsonResponse 200 (gin.OfCar created)].
Proof.
  cbv zeta. split; [reflexivity | split; [reflexivity |]].
  exact (proj1 (@create_then_get_returns_payload memdb.empty
                  (request "" (objectBody corolla2020))
                  (request (primitive.Hex oid1) badBody)
                  _ _ eq_refl eq_refl eq_refl)).
Defined.

(** The create handler panics exactly when a successful insert reports an
    identifier that is not an ObjectID; otherwise it writes exactly one
    response. *)
Lemma addCar_panics_only_on_foreign_id (S : Type) (h : mongo.Collection S)
    (req : gin.Request) (st : S) :
  let r := exec h req addCar st in
  (panicked r = true <->
   exists car result,
     gin.bind req zeroCar = (car, None) /\
     fst (mongo.answer h (mongo.InsertOne createTimeout car) st) = Ok result /\
     forall id, mongo.InsertedID result <> bson.VObjectID id) /\
  (panicked r = false -> length (responses r) = 1).
Proof.
  cbv zeta. destruct (gin.bind req zeroCar) as [car [e|]] eqn:EB.
  - rewrite (addCar_undecodable h req st EB). split; [|reflexivity].
    split; [discriminate|]. intros [car' [result [E _]]]. discriminate E.
  - destruct (mongo.answer h (mongo.InsertOne createTimeout car) st)
      as [res st'] eqn:EA.
    rewrite (addCar_inserted h req st EB EA).
    assert (Hinv : forall car' result,
               (car, @None error) = (car', None) ->
               fst (mongo.answer h (mongo.InsertOne createTimeout car') st)
                 = Ok result ->
               res = Ok result).
    { intros car' result E1 E2. injection E1 as <-. rewrite EA in E2.
      exact E2. }
    destruct res as [[v]|e]; cbn [mongo.InsertedID].
    + destruct v as [id|s|z|f|d]; cbn [panicked responses].
      1:{ split; [|reflexivity]. split; [discriminate|].
          intros [car' [result [E1 [E2 E3]]]].
          pose proof (Hinv _ _ E1 E2) as E. injection E as <-.
          destruct (E3 id eq_refl). }
      all: split; [|discriminate]; split; [|reflexivity]; intros _;
        exists car; eexists; (split; [reflexivity|]);
        (split; [rewrite EA; reflexivity|]); intros id'; discriminate.
    + cbn [panicked responses]. split; [|reflexivity].
      split; [discriminate|].
      intros [car' [result [E1 [E2 _]]]].
      pose proof (Hinv _ _ E1 E2) as E. discriminate E.
Qed.

Lemma driver_reportsDocumentID (S : Type) (env : driver.Env S) :
  reportsDocumentID (driver.collection env).
Proof.
  intros ctx car st res st'. cbn. unfold driver.InsertOne.
  destruct (bson.lookup "_id" (bson.marshalCar car)) as [v|].
  - destruct (driver.insertCommand env (bson.marshalCar car) st) as [[e|] s];
      intros E; inversion E; subst; reflexivity.
  - destruct (driver.NewObjectID env st) as [oid s0].
    destruct (driver.insertCommand env _ s0) as [[e|] s];
      intros E; inversion E; subst; cbn; eauto.
Qed.

(** On a reachable reference collection, an insert is the driver's insert
    over the collection's generator and insert command. *)
Lemma memdb_insert_is_driver_insert (car : Car) (st : memdb.State) :
  memdb.down st = None ->
  memdb.InsertOne car st = driver.InsertOne memdbEnv car st.
Proof.
  intros D. unfold memdb.InsertOne, driver.InsertOne. rewrite D.
  destruct (bson.lookup "_id" (bson.marshalCar car)) as [v|] eqn:L.
  - cbn. rewrite D, L. destruct (existsb _ (memdb.docs st)); reflexivity.
  - cbn. rewrite D. destruct (existsb _ (memdb.docs st)); reflexivity.
Qed.

(** C10: the driver reports as inserted identifier the [_id] of the
    document it sent: the ID of the Car, which is an ObjectID, or the
    ObjectID it generated when the ID is zero and left out.  So whatever
    the server answers, the type assertion of the create handler never
    fails: every run ends without a panic and with exactly one response. *)
Theorem addCar_never_panics :
  forall (S : Type) (env : driver.Env S) (req : gin.Request) (st : S),
    let r := exec (driver.collection env) req addCar st in
    panicked r = false /\ length (responses r) = 1.
Proof.
  intros S env req st. cbv zeta.
  destruct (gin.bind req zeroCar) as [car [e|]] eqn:EB.
  - rewrite (addCar_undecodable _ req st EB). split; reflexivity.
  - destruct (mongo.answer (driver.collection env)
                (mongo.InsertOne createTimeout car) st) as [res st'] eqn:EA.
    rewrite (addCar_inserted _ req st EB EA).
    cbn in EA. unfold driver.InsertOne in EA.
    rewrite lookup_id_marshalCar in EA.
    destruct (primitive.IsZero (ID car)).
    + destruct (driver.NewObjectID env st) as [oid s0].
      destruct (driver.insertCommand env _ s0) as [[e|] s];
        injection EA as <- <-; split; reflexivity.
    + destruct (driver.insertCommand env _ st) as [[e|] s];
        injection EA as <- <-; split; reflexivity.
Qed.

(** C1: evaluated where it fails.  The record is stored and the
    identifier is well formed, the query fails because the deadline passed
    (an error other than [mongo.ErrNoDocuments]), and the handler answers
    404 "Car not found" where the contract asks for 500. *)
Theorem getCarByID_reports_storage_failure_as_404 :
  let st := memdb.outage "context deadline exceeded" oneCorolla in
  let req := request (primitive.Hex oid1) badBody in
  idParam req = Ok oid1 /\
  List.find (memdb.matches (byID oid1)) (memdb.docs st) <> None /\
  fst (mongo.answer memdb.handle (mongo.FindOne createTimeout (byID oid1)) st)
    = Err "context deadline exceeded" /\
  "context deadline exceeded" <> mongo.ErrNoDocuments /\
  responses (exec memdb.handle req getCarByID st) =
    [jsonResponse http.StatusNotFound (errorBody "Car not found")].
Proof.
  cbv zeta. split; [reflexivity|]. split; [vm_compute; discriminate|].
  split; [reflexivity|]. split; [discriminate|]. reflexivity.
Qed.

Lemma filter_matches_all (ds : list bson.M) :
  List.filter (memdb.matches []) ds = ds.
Proof. induction ds as [|d ds IH]; cbn; [|rewrite IH]; reflexivity. Qed.

(** With at least one record stored, and every record decodable, the list
    handler answers 200 with the JSON array of all of them, in order. *)
Lemma getAllCars_lists_every_record (st : memdb.State) (req : gin.Request)
    (car : Car) (cars : list Car) :
  memdb.down st = None ->
  memdb.decodeAll (memdb.docs st) [] = Ok (car :: cars) ->
  responses (exec memdb.handle req getAllCars st) =
    [jsonResponse http.StatusOK (gin.OfCars (Some (car :: cars)))] /\
  gin.encode (gin.OfCars (Some (car :: cars))) =
    JArray (map carJSON (car :: cars)).
Proof.
  intros D E. split; [|reflexivity].
  assert (EF : mongo.answer memdb.handle (mongo.Find createTimeout []) st
               = (Ok {| mongo.batch := memdb.docs st |}, st)).
  { cbn. unfold memdb.Find. rewrite D, filter_matches_all. reflexivity. }
  rewrite (getAllCars_listed memdb.handle req st EF).
  cbn. unfold memdb.All. rewrite D. cbn [mongo.batch]. rewrite E. reflexivity.
Qed.

(** C2: evaluated where it fails.  On a collection without records the
    query and the decoding succeed, the slice declared by [var cars []Car]
    is still nil, and the body written with status 200 is JSON [null], not
    the empty array. *)
Theorem getAllCars_empty_collection_writes_null :
  let r := exec memdb.handle (request "" badBody) getAllCars memdb.empty in
  responses r = [jsonResponse http.StatusOK (gin.OfCars None)] /\
  gin.encode (gin.OfCars None) = JNull /\
  gin.encode (gin.OfCars None) <> JArray [].
Proof.
  cbv zeta. split; [reflexivity|]. split; [reflexivity|]. discriminate.
Qed.

(** ** [$set] on the reference collection *)

Lemma lookup_setField_same (k : string) (v : bson.Value) (d : bson.M) :
  bson.lookup k (memdb.setField k v d) = Some v.
Proof.
  induction d as [|[k' v'] d IH]; cbn.
  - rewrite String.eqb_refl. reflexivity.
  - destruct (String.eqb k' k) eqn:E; cbn.
    + rewrite String.eqb_refl. reflexivity.
    + rewrite E. exact IH.
Qed.

Lemma lookup_setField_other (k k0 : string) (v : bson.Value) (d : bson.M) :
  k0 <> k -> bson.lookup k0 (memdb.setField k v d) = bson.lookup k0 d.
Proof.
  intros Hk. assert (Hf : String.eqb k k0 = false).
  { apply String.eqb_neq. congruence. }
  induction d as [|[k' v'] d IH]; cbn.
  - rewrite Hf. reflexivity.
  - destruct (String.eqb k' k) eqn:E; cbn.
    + apply String.eqb_eq in E. subst k'. rewrite Hf. reflexivity.
    + destruct (String.eqb k' k0); [reflexivity | exact IH].
Qed.

Lemma applyUpdate_updateDoc (car : Car) (d : bson.M) :
  memdb.applyUpdate (updateDoc car) d = Ok (setCarFields car d).
Proof. reflexivity. Qed.

Lemma setCarFields_values (car : Car) (d : bson.M) :
  bson.lookup "make" (setCarFields car d) = Some (bson.VString (Make car)) /\
  bson.lookup "model" (setCarFields car d) = Some (bson.VString (Model car)) /\
  bson.lookup "year" (setCarFields car d) = Some (bson.VInt (Year car)) /\
  bson.lookup "price" (setCarFields car d) = Some (bson.VDouble (Price car)).
Proof.
  unfold setCarFields. repeat split;
    repeat first
      [ apply lookup_setField_same
      | rewrite lookup_setField_other by discriminate ].
Qed.

Lemma setCarFields_frame (car : Car) (d : bson.M) :
  sameExcept carFields d (setCarFields car d).
Proof.
  intros k Hk. unfold carFields in Hk. cbn [In] in Hk. unfold setCarFields.
  rewrite !lookup_setField_other; [reflexivity | | | |]; intros ->; tauto.
Qed.

Lemma find_updateFirst (filter : bson.M) (f : bson.M -> bson.M)
    (ds : list bson.M) :
  match List.find (memdb.matches filter) ds with
  | None => memdb.updateFirst filter f ds = None
  | Some d =>
      exists ds', memdb.updateFirst filter f ds = Some ds' /\
        (memdb.matches filter (f d) = true ->
         List.find (memdb.matches filter) ds' = Some (f d))
  end.
Proof.
  induction ds as [|d ds IH]; cbn; [reflexivity|].
  destruct (memdb.matches filter d) eqn:M.
  - eexists. split; [reflexivity|]. intros Hf. cbn. rewrite Hf. reflexivity.
  - destruct (List.find (memdb.matches filter) ds) as [d0|].
    + destruct IH as [ds' [-> IH]]. eexists. split; [reflexivity|].
      intros Hf. cbn. rewrite M. auto.
    + rewrite IH. reflexivity.
Qed.

Lemma updateFirst_Forall2 (filter : bson.M) (f : bson.M -> bson.M)
    (R : bson.M -> bson.M -> Prop) (ds ds' : list bson.M) :
  (forall d, R d d) -> (forall d, R d (f d)) ->
  memdb.updateFirst filter f ds = Some ds' -> Forall2 R ds ds'.
Proof.
  intros Hrefl Hf. revert ds'.
  induction ds as [|d ds IH]; cbn; intros ds' E; [discriminate|].
  destruct (memdb.matches filter d).
  - injection E as <-. constructor; [apply Hf|].
    clear IH. induction ds; constructor; auto.
  - destruct (memdb.updateFirst filter f ds) as [ds0|]; [|discriminate].
    injection E as <-. constructor; auto.
Qed.

Lemma memdb_UpdateOne_updateDoc (st : memdb.State) (id : primitive.ObjectID)
    (car : Car) :
  memdb.UpdateOne (byID id) (updateDoc car) st =
    match memdb.down st with
    | Some e => (Err e, st)
    | None =>
        match memdb.updateFirst (byID id) (setCarFields car) (memdb.docs st) with
        | None => (Ok {| mongo.MatchedCount := 0 |}, st)
        | Some ds =>
            (Ok {| mongo.MatchedCount := 1 |},
             {| memdb.docs := ds; memdb.nextID := memdb.nextID st;
                memdb.down := None |})
        end
    end.
Proof. unfold memdb.UpdateOne. destruct (memdb.down st); reflexivity. Qed.

Lemma matches_byID_setCarFields (id : primitive.ObjectID) (car : Car)
    (d : bson.M) :
  memdb.matches (byID id) (setCarFields car d) = memdb.matches (byID id) d.
Proof.
  unfold byID. rewrite !matches_byID.
  rewrite (setCarFields_frame car d); [reflexivity|].
  unfold carFields. cbn [In]. intros [H|[H|[H|[H|[]]]]]; discriminate.
Qed.

(** C5: for an update with a well-formed identifier and a decodable body,
    the one storage call made is the [$set] of make, model, year and price
    to the decoded payload's values, whatever they are (the zero values of
    omitted fields included); on a collection holding a record under the
    identifier, the record found afterwards has exactly those four
    values. *)
Theorem updateCar_overwrites_every_field :
  forall (st : memdb.State) (req : gin.Request) (id : primitive.ObjectID)
         (car : Car) (old : bson.M),
    idParam req = Ok id ->
    gin.bind req zeroCar = (car, None) ->
    memdb.FindOne (byID id) st = (Ok old, st) ->
    let r := exec memdb.handle req updateCar st in
    calls r =
      [mongo.Called
         (mongo.UpdateOne createTimeout (byID id)
            [("$set", bson.VDoc [("make", bson.VString (Make car));
                                 ("model", bson.VString (Model car));
                                 ("year", bson.VInt (Year car));
                                 ("price", bson.VDouble (Price car))])])] /\
    exists new,
      memdb.FindOne (byID id) (store r) = (Ok new, store r) /\
      bson.lookup "make" new = Some (bson.VString (Make car)) /\
      bson.lookup "model" new = Some (bson.VString (Model car)) /\
      bson.lookup "year" new = Some (bson.VInt (Year car)) /\
      bson.lookup "price" new = Some (bson.VDouble (Price car)).
Proof.
  intros st req id car old E1 E2 EF. cbv zeta.
  assert (EA : mongo.answer memdb.handle
                 (mongo.UpdateOne createTimeout (byID id) (updateDoc car)) st
               = memdb.UpdateOne (byID id) (updateDoc car) st) by reflexivity.
  destruct (memdb.UpdateOne (byID id) (updateDoc car) st) as [res st'] eqn:EU.
  rewrite (updateCar_updated memdb.handle req st E1 E2 EA).
  cbn [calls store]. split; [reflexivity|].
  rewrite memdb_UpdateOne_updateDoc in EU.
  unfold memdb.FindOne in EF.
  destruct (memdb.down st) eqn:D; [discriminate|].
  destruct (List.find (memdb.matches (byID id)) (memdb.docs st)) as [d|] eqn:F;
    [|discriminate].
  injection EF as ->.
  pose proof (find_updateFirst (byID id) (setCarFields car) (memdb.docs st)) as U.
  rewrite F in U. destruct U as [ds' [U1 U2]]. rewrite U1 in EU.
  injection EU as <- <-.
  exists (setCarFields car old). split.
  - unfold memdb.FindOne. cbn [memdb.down memdb.docs].
    rewrite U2; [reflexivity|].
    rewrite matches_byID_setCarFields.
    apply (find_some _ _ F).
  - apply setCarFields_values.
Qed.

Lemma updateCar_overwrites_every_field_witness :
  let req := request (primitive.Hex oid1) (objectBody [FMake "Honda"]) in
  idParam req = Ok oid1 /\
  gin.bind req zeroCar = (mkCar primitive.NilObjectID "Honda" "" 0 (S754_zero false), None) /\
  (exists old, memdb.FindOne (byID oid1) oneCorolla = (Ok old, oneCorolla)) /\
  exists new,
    memdb.FindOne (byID oid1) (store (exec memdb.handle req updateCar oneCorolla))
      = (Ok new, store (exec memdb.handle req updateCar oneCorolla)) /\
    bson.lookup "make" new = Some (bson.VString "Honda") /\
    bson.lookup "model" new = Some (bson.VString "") /\
    bson.lookup "year" new = Some (bson.VInt 0) /\
    bson.lookup "price" new = Some (bson.VDouble (S754_zero false)).
Proof.
  cbv zeta. split; [reflexivity | split; [reflexivity | split]].
  - eexists. reflexivity.
  - exact (proj2 (@updateCar_overwrites_every_field oneCorolla
                    (request (primitive.Hex oid1) (objectBody [FMake "Honda"]))
                    oid1 _ _ eq_refl eq_refl eq_refl)).
Defined.

(** ** Frame: what a run leaves of the stored documents *)

Lemma Forall2_sameExcept_refl (ds : list bson.M) :
  Forall2 (sameExcept carFields) ds ds.
Proof. induction ds; constructor; auto. intros k _. reflexivity. Qed.

Lemma Forall2_sameExcept_ids (ds ds' : list bson.M) :
  Forall2 (sameExcept carFields) ds ds' ->
  map (bson.lookup "_id") ds' = map (bson.lookup "_id") ds.
Proof.
  induction 1 as [|d d' ds ds' H _ IH]; cbn; [reflexivity|].
  rewrite IH. f_equal. apply H.
  unfold carFields. cbn [In]. intros [E|[E|[E|[E|[]]]]]; discriminate.
Qed.

Lemma deleteFirst_split (filter : bson.M) (ds ds' : list bson.M) :
  memdb.deleteFirst filter ds = Some ds' ->
  exists l1 d l2, ds = l1 ++ d :: l2 /\ ds' = l1 ++ l2.
Proof.
  revert ds'. induction ds as [|d ds IH]; cbn; intros ds' E; [discriminate|].
  destruct (memdb.matches filter d).
  - injection E as <-. exists [], d, ds. split; reflexivity.
  - destruct (memdb.deleteFirst filter ds) as [ds0|]; [|discriminate].
    injection E as <-. destruct (IH _ eq_refl) as [l1 [d0 [l2 [-> ->]]]].
    exists (d :: l1), d0, l2. split; reflexivity.
Qed.

Lemma updateCar_frame (st : memdb.State) (req : gin.Request) :
  Forall2 (sameExcept carFields) (memdb.docs st)
    (memdb.docs (store (exec memdb.handle req updateCar st))).
Proof.
  destruct (idParam req) as [id|e] eqn:E1.
  2:{ rewrite (updateCar_malformed memdb.handle req st E1).
      apply Forall2_sameExcept_refl. }
  destruct (gin.bind req zeroCar) as [car [e|]] eqn:E2.
  { rewrite (updateCar_undecodable memdb.handle req st E1 E2).
    apply Forall2_sameExcept_refl. }
  assert (EA : mongo.answer memdb.handle
                 (mongo.UpdateOne createTimeout (byID id) (updateDoc car)) st
               = memdb.UpdateOne (byID id) (updateDoc car) st) by reflexivity.
  destruct (memdb.UpdateOne (byID id) (updateDoc car) st) as [res st'] eqn:EU.
  rewrite (updateCar_updated memdb.handle req st E1 E2 EA). cbn [store].
  rewrite memdb_UpdateOne_updateDoc in EU.
  destruct (memdb.down st).
  { injection EU as _ <-. apply Forall2_sameExcept_refl. }
  destruct (memdb.updateFirst (byID id) (setCarFields car) (memdb.docs st))
    as [ds|] eqn:U; injection EU as _ <-.
  - cbn [memdb.docs].
    apply (updateFirst_Forall2 (byID id) (setCarFields car)
             (sameExcept carFields) (memdb.docs st)); auto.
    + intros d k _. reflexivity.
    + intros d. apply setCarFields_frame.
  - apply Forall2_sameExcept_refl.
Qed.

(** C9: whatever the request, a run of the update handler leaves every
    stored document with the [_id] it had; only make, model, year and price
    of a document can differ afterwards.  The other handlers never rewrite
    a stored document: list and get leave the collection as it is, create
    only appends, delete only removes. *)
Theorem updateCar_never_changes_an_id :
  forall (st : memdb.State) (req : gin.Request),
    (let r := exec memdb.handle req updateCar st in
     Forall2 (sameExcept carFields) (memdb.docs st) (memdb.docs (store r)) /\
     ids (store r) = ids st) /\
    memdb.docs (store (exec memdb.handle req getAllCars st)) = memdb.docs st /\
    memdb.docs (store (exec memdb.handle req getCarByID st)) = memdb.docs st /\
    (exists added,
       memdb.docs (store (exec memdb.handle req addCar st))
         = memdb.docs st ++ added) /\
    (exists kept1 removed kept2,
       memdb.docs st = kept1 ++ removed ++ kept2 /\
       memdb.docs (store (exec memdb.handle req deleteCar st))
         = kept1 ++ kept2).
Proof.
  intros st req. split; [|split; [|split; [|split]]].
  - cbv zeta. split; [apply updateCar_frame|].
    apply Forall2_sameExcept_ids, updateCar_frame.
  - cbn. unfold memdb.Find. destruct (memdb.down st) eqn:D; [reflexivity|].
    cbn. unfold memdb.All. rewrite D.
    destruct (memdb.decodeAll _ _) as [[|car cars]|e]; reflexivity.
  - destruct (idParam req) as [id|e] eqn:E1.
    + destruct (mongo.answer memdb.handle
                  (mongo.FindOne createTimeout (byID id)) st) as [sr st'] eqn:EA.
      rewrite (getCarByID_decoded memdb.handle req st E1 EA). cbn [store].
      cbn in EA. unfold memdb.FindOne in EA.
      destruct (memdb.down st); [injection EA as _ <-; reflexivity|].
      destruct (List.find _ _); injection EA as _ <-; reflexivity.
    + rewrite (getCarByID_malformed memdb.handle req st E1). reflexivity.
  - destruct (gin.bind req zeroCar) as [car [e|]] eqn:E2.
    + rewrite (addCar_undecodable memdb.handle req st E2).
      exists []. symmetry. apply app_nil_r.
    + assert (Hst : exists added,
                memdb.docs (snd (memdb.InsertOne car st)) = memdb.docs st ++ added).
      { unfold memdb.InsertOne. destruct (memdb.down st).
        - exists []. symmetry. apply app_nil_r.
        - destruct (bson.lookup "_id" (bson.marshalCar car));
            match goal with
            | |- context [existsb ?p ?l] => destruct (existsb p l)
            end; cbn; eauto; exists []; symmetry; apply app_nil_r. }
      destruct (memdb.InsertOne car st) as [res st'] eqn:EI.
      assert (EA : mongo.answer memdb.handle
                     (mongo.InsertOne createTimeout car) st = (res, st'))
        by exact EI.
      rewrite (addCar_inserted memdb.handle req st E2 EA).
      destruct res as [[[]]|]; exact Hst.
  - destruct (idParam req) as [id|e] eqn:E1.
    + destruct (mongo.answer memdb.handle
                  (mongo.DeleteOne createTimeout (byID id)) st) as [res st'] eqn:EA.
      rewrite (deleteCar_deleted memdb.handle req st E1 EA). cbn [store].
      cbn in EA. unfold memdb.DeleteOne in EA. destruct (memdb.down st).
      * injection EA as _ <-.
        exists (memdb.docs st), [], []. rewrite !app_nil_r. split; reflexivity.
      * destruct (memdb.deleteFirst (byID id) (memdb.docs st)) as [ds|] eqn:Dl;
          injection EA as _ <-.
        -- destruct (deleteFirst_split _ _ Dl) as [l1 [d [l2 [-> ->]]]].
           exists l1, [d], l2. split; reflexivity.
        -- exists (memdb.docs st), [], []. rewrite !app_nil_r.
           split; reflexivity.
    + rewrite (deleteCar_malformed memdb.handle req st E1).
      exists (memdb.docs st), [], []. rewrite !app_nil_r. split; reflexivity.
Qed.

(** ** The scenario of the service contract *)

(** POST a Corolla, GET it, PUT the 2021 model year, DELETE it, GET it
    again, on a collection that starts empty: 201, 200, 200, 204, 404; and
    a GET with an identifier that is not hexadecimal: 400. *)
Example scenario :
  let id := primitive.Hex oid1 in
  let s0 := memdb.empty in
  let r1 := exec memdb.handle (request "" (objectBody corolla2020)) addCar s0 in
  let r2 := exec memdb.handle (request id badBody) getCarByID (store r1) in
  let r3 := exec memdb.handle (request id (objectBody corolla2021)) updateCar
              (store r2) in
  let r4 := exec memdb.handle (request id badBody) deleteCar (store r3) in
  let r5 := exec memdb.handle (request id badBody) getCarByID (store r4) in
  let r6 := exec memdb.handle (request "not-a-valid-id" badBody) getCarByID
              (store r5) in
  map codes [r1; r2; r3; r4; r5; r6] =
    [[201]; [200]; [200]; [204]; [404]; [400]]%Z /\
  map gin.body (responses r2) = map gin.body (responses r1) /\
  map (fun r => map gin.body (responses r)) [r3; r4] =
    [[Some (gin.OfCar (mkCar oid1 "Toyota" "Corolla" 2021 price18999_99))];
     [None]].
Proof. vm_compute. repeat split. Qed.

(** * Further properties of the handlers *)

(** ** For any collection *)

Section AnyCollectionMore.

Variable S : Type.
Variable h : mongo.Collection S.
Variable req : gin.Request.
Variable st : S.

Lemma getAllCars_run :
  exec h req getAllCars st =
    match mongo.answer h (mongo.Find createTimeout []) st with
    | (Err _, st1) =>
        {| responses := [jsonResponse 500 (errorBody "Failed to fetch cars")];
           calls := [mongo.Called (mongo.Find createTimeout [])];
           store := st1; panicked := false |}
    | (Ok cursor, st1) =>
        let '(cars, err, st2) :=
          mongo.answer h (mongo.All cursor createTimeout None) st1 in
        {| responses :=
             match err with
             | Some _ => [jsonResponse 500 (errorBody "Failed to load cars")]
             | None => [jsonResponse 200 (gin.OfCars cars)]
             end;
           calls := [mongo.Called (mongo.Find createTimeout []);
                     mongo.Called (mongo.All cursor createTimeout None);
                     mongo.Called (mongo.Close cursor createTimeout)];
           store := snd (mongo.answer h (mongo.Close cursor createTimeout) st2);
           panicked := false |}
    end.
Proof.
  cbn. destruct (mongo.answer h (mongo.Find createTimeout []) st)
    as [[cursor|e] st1]; [|reflexivity].
  cbn. destruct (mongo.answer h (mongo.All cursor createTimeout None) st1)
    as [[cars [e|]] st2]; cbn;
    destruct (mongo.answer h (mongo.Close cursor createTimeout) st2);
    reflexivity.
Qed.

Lemma addCar_run :
  exec h req addCar st =
    match gin.bind req zeroCar with
    | (_, Some _) =>
        {| responses := [jsonResponse 400 (errorBody "Invalid car data")];
           calls := []; store := st; panicked := false |}
    | (car, None) =>
        let (res, st') := mongo.answer h (mongo.InsertOne createTimeout car) st in
        {| responses :=
             match res with
             | Err _ => [jsonResponse 500 (errorBody "Failed to add car")]
             | Ok result =>
                 match mongo.InsertedID result with
                 | bson.VObjectID id =>
                     [jsonResponse 201 (gin.OfCar (setID car id))]
                 | _ => []
                 end
             end;
           calls := [mongo.Called (mongo.InsertOne createTimeout car)];
           store := st';
           panicked :=
             match res with
             | Ok {| mongo.InsertedID := bson.VObjectID _ |} | Err _ => false
             | _ => true
             end |}
    end.
Proof.
  destruct (gin.bind req zeroCar) as [car [e|]] eqn:EB.
  - apply (addCar_undecodable h req st EB).
  - destruct (mongo.answer h (mongo.InsertOne createTimeout car) st)
      as [res st'] eqn:EA.
    rewrite (addCar_inserted h req st EB EA).
    destruct res as [[[]]|]; reflexivity.
Qed.

Lemma getCarByID_run :
  exec h req getCarByID st =
    match idParam req with
    | Err _ =>
        {| responses := [jsonResponse 400 (errorBody "Invalid car ID")];
           calls := []; store := st; panicked := false |}
    | Ok id =>
        let (sr, st') :=
          mongo.answer h (mongo.FindOne createTimeout (byID id)) st in
        {| responses :=
             match mongo.Decode sr zeroCar with
             | (_, Some _) => [jsonResponse 404 (errorBody "Car not found")]
             | (car, None) => [jsonResponse 200 (gin.OfCar car)]
             end;
           calls := [mongo.Called (mongo.FindOne createTimeout (byID id))];
           store := st'; panicked := false |}
    end.
Proof.
  destruct (idParam req) as [id|e] eqn:E1.
  - destruct (mongo.answer h (mongo.FindOne createTimeout (byID id)) st)
      as [sr st'] eqn:EA.
    apply (getCarByID_decoded h req st E1 EA).
  - apply (getCarByID_malformed h req st E1).
Qed.

Lemma updateCar_run :
  exec h req updateCar st =
    match idParam req with
    | Err _ =>
        {| responses := [jsonResponse 400 (errorBody "Invalid car ID")];
           calls := []; store := st; panicked := false |}
    | Ok id =>
        match gin.bind req zeroCar with
        | (_, Some _) =>
            {| responses := [jsonResponse 400 (errorBody "Invalid car data")];
               calls := []; store := st; panicked := false |}
        | (car, None) =>
            let (res, st') :=
              mongo.answer h
                (mongo.UpdateOne createTimeout (byID id) (updateDoc car)) st in
            {| responses :=
                 match res with
                 | Err _ => [jsonResponse 500 (errorBody "Failed to update car")]
                 | Ok result =>
                     if Z.eqb (mongo.MatchedCount result) 0
                     then [jsonResponse 404 (errorBody "Car not found")]
                     else [jsonResponse 200 (gin.OfCar (setID car id))]
                 end;
               calls := [mongo.Called
                           (mongo.UpdateOne createTimeout (byID id)
                              (updateDoc car))];
               store := st'; panicked := false |}
        end
    end.
Proof.
  destruct (idParam req) as [id|e] eqn:E1.
  - destruct (gin.bind req zeroCar) as [car [e|]] eqn:E2.
    + apply (updateCar_undecodable h req st E1 E2).
    + destruct (mongo.answer h
                  (mongo.UpdateOne createTimeout (byID id) (updateDoc car)) st)
        as [res st'] eqn:EA.
      apply (updateCar_updated h req st E1 E2 EA).
  - apply (updateCar_malformed h req st E1).
Qed.

Lemma deleteCar_run :
  exec h req deleteCar st =
    match idParam req with
    | Err _ =>
        {| responses := [jsonResponse 400 (errorBody "Invalid car ID")];
           calls := []; store := st; panicked := false |}
    | Ok id =>
        let (res, st') :=
          mongo.answer h (mongo.DeleteOne createTimeout (byID id)) st in
        {| responses :=
             match res with
             | Err _ => [jsonResponse 500 (errorBody "Failed to delete car")]
             | Ok result =>
                 if Z.eqb (mongo.DeletedCount result) 0
                 then [jsonResponse 404 (errorBody "Car not found")]
                 else [{| gin.code := 204; gin.body := None |}]
             end;
           calls := [mongo.Called (mongo.DeleteOne createTimeout (byID id))];
           store := st'; panicked := false |}
    end.
Proof.
  destruct (idParam req) as [id|e] eqn:E1.
  - destruct (mongo.answer h (mongo.DeleteOne createTimeout (byID id)) st)
      as [res st'] eqn:EA.
    apply (deleteCar_deleted h req st E1 EA).
  - apply (deleteCar_malformed h req st E1).
Qed.

End AnyCollectionMore.

(** Splits a run of any handler into the cases its answers allow. *)
Ltac handler_cases h req st :=
  first
    [ rewrite (getAllCars_run h req st);
      destruct (mongo.answer h (mongo.Find createTimeout []) st)
        as [[?cursor|?e] ?st1];
      [ match goal with
        | |- context [mongo.answer h (mongo.All ?c ?x ?y) ?s] =>
            destruct (mongo.answer h (mongo.All c x y) s) as [[?cars [?e|]] ?st2]
        end | ]
    | rewrite (addCar_run h req st);
      destruct (gin.bind req zeroCar) as [?car [?e|]];
      [ | match goal with
          | |- context [mongo.answer h ?op st] =>
              destruct (mongo.answer h op st) as [[[[?id|?s|?z|?f|?d]]|?e] ?st']
          end ]
    | rewrite (getCarByID_run h req st);
      destruct (idParam req) as [?id|?e];
      [ match goal with
        | |- context [mongo.answer h ?op st] =>
            destruct (mongo.answer h op st) as [?sr ?st'];
            destruct (mongo.Decode sr zeroCar) as [?car [?e|]]
        end | ]
    | rewrite (updateCar_run h req st);
      destruct (idParam req) as [?id|?e];
      [ destruct (gin.bind req zeroCar) as [?car [?e|]];
        [ | match goal with
            | |- context [mongo.answer h ?op st] =>
                destruct (mongo.answer h op st) as [[[?n]|?e] ?st'];
                [ cbn [mongo.MatchedCount]; destruct (Z.eqb n 0) | ]
            end ] | ]
    | rewrite (deleteCar_run h req st);
      destruct (idParam req) as [?id|?e];
      [ match goal with
        | |- context [mongo.answer h ?op st] =>
            destruct (mongo.answer h op st) as [[[?n]|?e] ?st'];
            [ cbn [mongo.DeletedCount]; destruct (Z.eqb n 0) | ]
        end | ] ].

(** X3: list, get, update and delete answer every request exactly once and
    never panic, whatever the collection answers. *)
Theorem handlers_answer_exactly_once :
  forall (S : Type) (h : mongo.Collection S) (req : gin.Request) (st : S)
         (p : Prog unit),
    In p [getAllCars; getCarByID; updateCar; deleteCar] ->
    let r := exec h req p st in
    length (responses r) = 1 /\ panicked r = false.
Proof.
  intros S h req st p Hp. cbn [In] in Hp. cbv zeta.
  destruct Hp as [<- | [<- | [<- | [<- | []]]]];
    handler_cases h req st; split; reflexivity.
Qed.

Lemma handlers_answer_exactly_once_witness :
  In deleteCar [getAllCars; getCarByID; updateCar; deleteCar] /\
  length (responses (exec memdb.handle (request "zz" badBody) deleteCar
                       oneCorolla)) = 1.
Proof.
  assert (H : In deleteCar [getAllCars; getCarByID; updateCar; deleteCar]).
  { cbn. auto. }
  split; [exact H|].
  exact (proj1 (handlers_answer_exactly_once memdb.handle
                  (request "zz" badBody) oneCorolla H)).
Defined.



(** X5: the list and get handlers never make a call that can change the
    collection, whatever it answers. *)
Theorem read_handlers_never_write :
  forall (S : Type) (h : mongo.Collection S) (req : gin.Request) (st : S),
    existsb writes (calls (exec h req getAllCars st)) = false /\
    existsb writes (calls (exec h req getCarByID st)) = false.
Proof.
  intros S h req st. split; handler_cases h req st; reflexivity.
Qed.

(** X6: every storage call of every handler is made with the context of
    [createTimeout], that is under the deadline of ten seconds. *)
Theorem every_call_has_the_deadline :
  forall (S : Type) (h : mongo.Collection S) (req : gin.Request) (st : S)
         (p : Prog unit) (cl : mongo.Call),
    In p handlers ->
    In cl (calls (exec h req p st)) ->
    callContext cl = createTimeout /\
    timeout_ns (callContext cl) = (10 * 1000 * 1000 * 1000)%Z.
Proof.
  intros S h req st p cl Hp. unfold handlers in Hp. cbn [In] in Hp.
  destruct Hp as [<- | [<- | [<- | [<- | [<- | []]]]]];
    handler_cases h req st; cbn [calls In]; intros Hin;
    repeat (destruct Hin as [<- | Hin]; [split; reflexivity|]);
    destruct Hin.
Qed.

Lemma every_call_has_the_deadline_witness :
  let cl := mongo.Called (mongo.DeleteOne createTimeout (byID oid1)) in
  let r := exec memdb.handle (request (primitive.Hex oid1) badBody) deleteCar
             oneCorolla in
  In deleteCar handlers /\ In cl (calls r) /\
  timeout_ns (callContext cl) = 10000000000%Z.
Proof.
  cbv zeta.
  assert (H1 : In deleteCar handlers) by (cbn; auto 6).
  assert (H2 : In (mongo.Called (mongo.DeleteOne createTimeout (byID oid1)))
                 (calls (exec memdb.handle
                           (request (primitive.Hex oid1) badBody) deleteCar
                           oneCorolla))) by (left; reflexivity).
  split; [exact H1 | split; [exact H2 |]].
  exact (proj2 (@every_call_has_the_deadline _ _ _ _ _ _ H1 H2)).
Defined.

(** X7: create, get, update and delete make at most one storage call per
    request (a failed call is not retried), and none at all when they
    answer 400. *)
Theorem at_most_one_storage_call :
  forall (S : Type) (h : mongo.Collection S) (req : gin.Request) (st : S)
         (p : Prog unit),
    In p [addCar; getCarByID; updateCar; deleteCar] ->
    let r := exec h req p st in
    length (calls r) <= 1 /\
    (codes r = [http.StatusBadRequest] -> calls r = [] /\ store r = st).
Proof.
  intros S h req st p Hp. cbn [In] in Hp. cbv zeta.
  destruct Hp as [<- | [<- | [<- | [<- | []]]]];
    handler_cases h req st; unfold codes; cbn [responses calls store map length];
    (split; [lia | intros Hc; try discriminate Hc; split; reflexivity]).
Qed.

Lemma at_most_one_storage_call_witness :
  In getCarByID [addCar; getCarByID; updateCar; deleteCar] /\
  length (calls (exec memdb.handle (request (primitive.Hex oid1) badBody)
                   getCarByID oneCorolla)) <= 1.
Proof.
  assert (H : In getCarByID [addCar; getCarByID; updateCar; deleteCar])
    by (cbn; auto).
  split; [exact H|].
  exact (proj1 (@at_most_one_storage_call _ memdb.handle
                  (request (primitive.Hex oid1) badBody) oneCorolla _ H)).
Defined.

(** X1: the list handler answers 500 "Failed to fetch cars" and makes no
    further call when the query fails; once the query gave a cursor, that
    cursor is read once and closed once, on the decoding failure path (500
    "Failed to load cars") as on the success path.  On the success path the
    handler answers 200 with the slice the cursor filled; the client
    receives status 200 and that list as body, or status 200 and no body
    when a listed price is NaN or infinite. *)
Theorem getAllCars_outcome :
  forall (S : Type) (h : mongo.Collection S) (req : gin.Request) (st : S),
    let r := exec h req getAllCars st in
    let find := mongo.Called (mongo.Find createTimeout []) in
    (forall e st1,
       mongo.answer h (mongo.Find createTimeout []) st = (Err e, st1) ->
       responses r = [jsonResponse http.StatusInternalServerError
                        (errorBody "Failed to fetch cars")] /\
       calls r = [find]) /\
    (forall cursor st1 cars err st2,
       mongo.answer h (mongo.Find createTimeout []) st = (Ok cursor, st1) ->
       mongo.answer h (mongo.All cursor createTimeout None) st1
         = ((cars, err), st2) ->
       calls r = [find; mongo.Called (mongo.All cursor createTimeout None);
                  mongo.Called (mongo.Close cursor createTimeout)] /\
       match err with
       | Some _ =>
           responses r = [jsonResponse http.StatusInternalServerError
                            (errorBody "Failed to load cars")]
       | None =>
           responses r = [jsonResponse http.StatusOK (gin.OfCars cars)] /\
           map sent (responses r) =
             [(http.StatusOK,
               match cars with
               | None => Some (gin.OfCars None)
               | Some l =>
                   if forallb (fun car => finite (Price car)) l
                   then Some (gin.OfCars (Some l)) else None
               end)]
       end).
Proof.
  intros S h req st. cbv zeta. rewrite getAllCars_run. split.
  - intros e st1 ->. split; reflexivity.
  - intros cursor st1 cars err st2 -> E. cbv zeta. rewrite E.
    split; [reflexivity|]. destruct err as [e|]; [reflexivity|].
    split; [reflexivity|]. cbn [responses map]. unfold sent.
    cbn [gin.code gin.body jsonResponse encodable].
    destruct cars as [l|]; [|reflexivity].
    destruct (forallb (fun car => finite (Price car)) l); reflexivity.
Qed.

Lemma getAllCars_outcome_witness :
  let req := request "" badBody in
  mongo.answer memdb.handle (mongo.Find createTimeout [])
    (memdb.outage "connection refused" oneCorolla)
    = (Err "connection refused", memdb.outage "connection refused" oneCorolla) /\
  codes (exec memdb.handle req getAllCars
           (memdb.outage "connection refused" oneCorolla)) = [500%Z] /\
  map sent (responses (exec memdb.handle req getAllCars oneCorolla)) =
    [(200%Z,
      Some (gin.OfCars
              (Some [mkCar oid1 "Toyota" "Corolla" 2020 price19999_99])))] /\
  map sent (responses (exec memdb.handle req getAllCars infinitePrice)) =
    [(200%Z, None)].
Proof.
  cbv zeta. split; [reflexivity | split; [|split]].
  - pose proof (proj1 (proj1 (getAllCars_outcome memdb.handle
                  (request "" badBody)
                  (memdb.outage "connection refused" oneCorolla))
                  _ _ eq_refl)) as H.
    unfold codes. rewrite H. reflexivity.
  - exact (proj2 (proj2 (proj2 (getAllCars_outcome memdb.handle
                  (request "" badBody) oneCorolla)
                  _ _ _ _ _ eq_refl eq_refl))).
  - exact (proj2 (proj2 (proj2 (getAllCars_outcome memdb.handle
                  (request "" badBody) infinitePrice)
                  _ _ _ _ _ eq_refl eq_refl))).
Defined.

(** X2: with a well-formed identifier the get handler makes the one call
    [FindOne] filtered on that [_id] and leaves the collection as the call
    left it.  Any error of the call is answered 404 "Car not found"; a
    document as the service writes it is answered 200 with the Car it
    holds, of which the client receives the body unless the price is NaN or
    infinite; and whatever the document, the answer is that 404 or a 200
    with a Car. *)
Theorem getCarByID_outcome :
  forall (S : Type) (h : mongo.Collection S) (req : gin.Request) (st st' : S)
         (id : primitive.ObjectID) (sr : mongo.SingleResult),
    idParam req = Ok id ->
    mongo.answer h (mongo.FindOne createTimeout [("_id", bson.VObjectID id)]) st
      = (sr, st') ->
    let r := exec h req getCarByID st in
    let notFound :=
      jsonResponse http.StatusNotFound (errorBody "Car not found") in
    calls r = [mongo.Called
                 (mongo.FindOne createTimeout [("_id", bson.VObjectID id)])] /\
    store r = st' /\
    (forall e, sr = Err e -> responses r = [notFound]) /\
    (forall car id',
       sr = Ok [("_id", bson.VObjectID id');
                ("make", bson.VString (Make car));
                ("model", bson.VString (Model car));
                ("year", bson.VInt (Year car));
                ("price", bson.VDouble (Price car))] ->
       exists found,
         responses r = [jsonResponse http.StatusOK (gin.OfCar found)] /\
         ID found = id' /\ Make found = Make car /\ Model found = Model car /\
         Year found = Year car /\ Price found = Price car /\
         map sent (responses r) =
           [(http.StatusOK,
             if finite (Price car) then Some (gin.OfCar found) else None)]) /\
    (responses r = [notFound] \/
     exists car, responses r = [jsonResponse http.StatusOK (gin.OfCar car)]).
Proof.
  intros S h req st st' id sr E1 E2. cbv zeta.
  rewrite (getCarByID_decoded h req st E1 E2). cbn [calls store responses].
  split; [reflexivity | split; [reflexivity |]]. split; [|split].
  - intros e ->. reflexivity.
  - intros car id' ->. cbn [mongo.Decode]. rewrite unmarshal_stored.
    exists (setID car id'). cbn [ID Make Model Year Price setID].
    repeat (split; [reflexivity|]).
    cbn [map]. unfold sent.
    cbn [gin.code gin.body jsonResponse encodable Price setID].
    destruct (finite (Price car)); reflexivity.
  - destruct (mongo.Decode sr zeroCar) as [car [e|]]; [left | right; exists car];
      reflexivity.
Qed.

Lemma getCarByID_outcome_witness :
  let req := request (primitive.Hex oid1) badBody in
  idParam req = Ok oid1 /\
  responses (exec memdb.handle req getCarByID oneCorolla) =
    [jsonResponse 200
       (gin.OfCar (mkCar oid1 "Toyota" "Corolla" 2020 price19999_99))] /\
  map sent (responses (exec memdb.handle req getCarByID infinitePrice)) =
    [(200%Z, None)] /\
  responses (exec memdb.handle req getCarByID
               (memdb.outage "context deadline exceeded" oneCorolla)) =
    [jsonResponse 404 (errorBody "Car not found")].
Proof.
  cbv zeta. split; [reflexivity | split; [|split]].
  - destruct (proj1 (proj2 (proj2 (proj2 (@getCarByID_outcome _ memdb.handle
                  (request (primitive.Hex oid1) badBody) oneCorolla _ oid1 _
                  eq_refl eq_refl))))
                (mkCar oid1 "Toyota" "Corolla" 2020 price19999_99) oid1 eq_refl)
      as [[i mk md y p] [H [Hi [Hmk [Hmd [Hy [Hp _]]]]]]].
    cbn in Hi, Hmk, Hmd, Hy, Hp. subst. exact H.
  - destruct (proj1 (proj2 (proj2 (proj2 (@getCarByID_outcome _ memdb.handle
                  (request (primitive.Hex oid1) badBody) infinitePrice _ oid1 _
                  eq_refl eq_refl))))
                (mkCar oid1 "Toyota" "Corolla" 2020 (S754_infinity false))
                oid1 eq_refl)
      as [found [_ [_ [_ [_ [_ [_ H]]]]]]].
    exact H.
  - exact (proj1 (proj2 (proj2 (@getCarByID_outcome _ memdb.handle
                  (request (primitive.Hex oid1) badBody)
                  (memdb.outage "context deadline exceeded" oneCorolla)
                  _ oid1 _ eq_refl eq_refl))) _ eq_refl).
Defined.

(** ** The encoding of a Car *)

(** X8: a Car encoded under its bson tags decodes to the same Car; with a
    zero ID the [_id] is left out of the document and the ID decodes as
    zero again. *)
Theorem marshal_unmarshal_roundtrip :
  forall car : Car,
    bson.unmarshalCar (bson.marshalCar car) zeroCar = Ok car /\
    (bson.lookup "_id" (bson.marshalCar car) = None <->
     ID car = primitive.NilObjectID).
Proof.
  intros car. rewrite lookup_id_marshalCar. unfold bson.marshalCar.
  destruct (primitive.IsZero (ID car)) eqn:Z.
  - apply oid_eqb_eq in Z. destruct car as [i mk md y p]. cbn in Z. subst i.
    split; [reflexivity | split; reflexivity].
  - split.
    + destruct car. reflexivity.
    + split; [discriminate|]. intros E. rewrite E in Z. discriminate.
Qed.

(** ** Sequences of requests on the reference collection *)

Lemma find_none_of_existsb {A : Type} (p : A -> bool) (l : list A) :
  existsb p l = false -> List.find p l = None.
Proof.
  induction l as [|a l IH]; cbn; [reflexivity|]. intros E.
  apply orb_false_iff in E. destruct E as [-> E]. auto.
Qed.

Lemma existsb_of_find_none {A : Type} (p : A -> bool) (l : list A) :
  List.find p l = None -> existsb p l = false.
Proof.
  induction l as [|a l IH]; cbn; [reflexivity|].
  destruct (p a); [discriminate | auto].
Qed.

Lemma updateFirst_none (filter : bson.M) (f : bson.M -> bson.M)
    (l : list bson.M) :
  existsb (memdb.matches filter) l = false ->
  memdb.updateFirst filter f l = None.
Proof.
  induction l as [|a l IH]; cbn; [reflexivity|]. intros E.
  apply orb_false_iff in E. destruct E as [-> E]. rewrite IH; auto.
Qed.

Lemma updateFirst_last (filter : bson.M) (f : bson.M -> bson.M)
    (l : list bson.M) (x : bson.M) :
  existsb (memdb.matches filter) l = false -> memdb.matches filter x = true ->
  memdb.updateFirst filter f (l ++ [x]) = Some (l ++ [f x]).
Proof.
  induction l as [|a l IH]; cbn; intros E Hx.
  - rewrite Hx. reflexivity.
  - apply orb_false_iff in E. destruct E as [-> E]. rewrite IH; auto.
Qed.

Lemma deleteFirst_none (filter : bson.M) (l : list bson.M) :
  existsb (memdb.matches filter) l = false ->
  memdb.deleteFirst filter l = None.
Proof.
  induction l as [|a l IH]; cbn; [reflexivity|]. intros E.
  apply orb_false_iff in E. destruct E as [-> E]. rewrite IH; auto.
Qed.

Lemma deleteFirst_last (filter : bson.M) (l : list bson.M) (x : bson.M) :
  existsb (memdb.matches filter) l = false -> memdb.matches filter x = true ->
  memdb.deleteFirst filter (l ++ [x]) = Some l.
Proof.
  induction l as [|a l IH]; cbn; intros E Hx.
  - rewrite Hx. reflexivity.
  - apply orb_false_iff in E. destruct E as [-> E]. rewrite IH; auto.
Qed.

Lemma decodeAll_last (l : list bson.M) (d : bson.M) (cars : list Car)
    (car : Car) :
  memdb.decodeAll l [] = Ok cars ->
  bson.unmarshalCar d zeroCar = Ok car ->
  memdb.decodeAll (l ++ [d]) [] = Ok (cars ++ [car]).
Proof.
  revert cars. induction l as [|a l IH]; cbn; intros cars E Hd.
  - injection E as <-. rewrite Hd. reflexivity.
  - destruct (bson.unmarshalCar a zeroCar) as [c|e]; [|discriminate].
    destruct (memdb.decodeAll l []) as [cs|e]; [|discriminate].
    injection E as <-. rewrite (IH cs eq_refl Hd). reflexivity.
Qed.

(** The state a successful insert leaves: the documents before, followed
    by the document of the Car under an identifier not stored before. *)
Lemma memdb_insert_shape (st st' : memdb.State) (car : Car)
    (res : mongo.InsertOneResult) :
  memdb.InsertOne car st = (Ok res, st') ->
  exists id,
    mongo.InsertedID res = bson.VObjectID id /\
    memdb.docs st' = memdb.docs st ++ [storedDoc car id] /\
    existsb (memdb.matches (byID id)) (memdb.docs st) = false /\
    memdb.down st' = None /\
    (primitive.IsZero (ID car) = false -> id = ID car).
Proof.
  unfold memdb.InsertOne. destruct (memdb.down st) eqn:D; [discriminate|].
  rewrite lookup_id_marshalCar. unfold bson.marshalCar.
  destruct (primitive.IsZero (ID car)) eqn:Z; cbn [app];
    match goal with
    | |- context [existsb ?p ?l] => destruct (existsb p l) eqn:X
    end; intros E; inversion E; subst; clear E; cbn [mongo.InsertedID].
  - exists (memdb.NewObjectID (memdb.nextID st)).
    repeat split; try reflexivity; [exact X | discriminate].
  - exists (ID car). repeat split; try reflexivity. exact X.
Qed.

Lemma matches_storedDoc (car : Car) (id : primitive.ObjectID) :
  memdb.matches (byID id) (storedDoc car id) = true.
Proof. apply matches_byID_head. Qed.

Lemma unmarshal_storedDoc (car : Car) (id : primitive.ObjectID) :
  bson.unmarshalCar (storedDoc car id) zeroCar = Ok (setID car id).
Proof. apply unmarshal_stored. Qed.

(** What a create answered 201 leaves behind. *)
Lemma addCar_created (st : memdb.State) (req : gin.Request) (P created : Car) :
  gin.bind req zeroCar = (P, None) ->
  responses (exec memdb.handle req addCar st) =
    [jsonResponse http.StatusCreated (gin.OfCar created)] ->
  created = setID P (ID created) /\
  memdb.docs (store (exec memdb.handle req addCar st)) =
    memdb.docs st ++ [storedDoc P (ID created)] /\
  existsb (memdb.matches (byID (ID created))) (memdb.docs st) = false /\
  memdb.down (store (exec memdb.handle req addCar st)) = None /\
  (primitive.IsZero (ID P) = false -> ID created = ID P).
Proof.
  intros EB H201.
  destruct (memdb.InsertOne P st) as [res st'] eqn:EI.
  assert (EA : mongo.answer memdb.handle (mongo.InsertOne createTimeout P) st
               = (res, st')) by exact EI.
  rewrite (addCar_inserted memdb.handle req st EB EA) in *.
  destruct res as [result|e]; [|discriminate].
  destruct (memdb_insert_shape _ _ EI) as [id [Eid [Hd [Hx [Hdown Hz]]]]].
  rewrite Eid in *. cbn [responses store] in *.
  injection H201 as <-. cbn [ID setID].
  repeat split; assumption.
Qed.

Section OnTheCollection.

Variable st : memdb.State.
Variable req : gin.Request.
Variable id : primitive.ObjectID.
Hypothesis reachable : memdb.down st = None.
Hypothesis wellFormed : idParam req = Ok id.

Lemma getCarByID_absent :
  existsb (memdb.matches (byID id)) (memdb.docs st) = false ->
  exec memdb.handle req getCarByID st =
    {| responses := [jsonResponse 404 (errorBody "Car not found")];
       calls := [mongo.Called (mongo.FindOne createTimeout (byID id))];
       store := st; panicked := false |}.
Proof.
  intros X.
  assert (EA : mongo.answer memdb.handle
                 (mongo.FindOne createTimeout (byID id)) st
               = (Err mongo.ErrNoDocuments, st)).
  { cbn. unfold memdb.FindOne. rewrite reachable, (find_none_of_existsb _ _ X).
    reflexivity. }
  rewrite (getCarByID_decoded memdb.handle req st wellFormed EA). reflexivity.
Qed.

Lemma updateCar_absent (car : Car) :
  gin.bind req zeroCar = (car, None) ->
  existsb (memdb.matches (byID id)) (memdb.docs st) = false ->
  exec memdb.handle req updateCar st =
    {| responses := [jsonResponse 404 (errorBody "Car not found")];
       calls := [mongo.Called
                   (mongo.UpdateOne createTimeout (byID id) (updateDoc car))];
       store := st; panicked := false |}.
Proof.
  intros EB X.
  assert (EA : mongo.answer memdb.handle
                 (mongo.UpdateOne createTimeout (byID id) (updateDoc car)) st
               = (Ok {| mongo.MatchedCount := 0 |}, st)).
  { cbn [mongo.answer memdb.handle memdb.answer].
    rewrite memdb_UpdateOne_updateDoc, reachable, (updateFirst_none _ _ _ X).
    reflexivity. }
  rewrite (updateCar_updated memdb.handle req st wellFormed EB EA). reflexivity.
Qed.

Lemma deleteCar_absent :
  existsb (memdb.matches (byID id)) (memdb.docs st) = false ->
  exec memdb.handle req deleteCar st =
    {| responses := [jsonResponse 404 (errorBody "Car not found")];
       calls := [mongo.Called (mongo.DeleteOne createTimeout (byID id))];
       store := st; panicked := false |}.
Proof.
  intros X.
  assert (EA : mongo.answer memdb.handle
                 (mongo.DeleteOne createTimeout (byID id)) st
               = (Ok {| mongo.DeletedCount := 0 |}, st)).
  { cbn. unfold memdb.DeleteOne. rewrite reachable, (deleteFirst_none _ _ X).
    reflexivity. }
  rewrite (deleteCar_deleted memdb.handle req st wellFormed EA). reflexivity.
Qed.

Variable before : list bson.M.
Variable P : Car.
Hypothesis last : memdb.docs st = before ++ [storedDoc P id].
Hypothesis fresh : existsb (memdb.matches (byID id)) before = false.

Lemma getCarByID_last :
  exec memdb.handle req getCarByID st =
    {| responses := [jsonResponse 200 (gin.OfCar (setID P id))];
       calls := [mongo.Called (mongo.FindOne createTimeout (byID id))];
       store := st; panicked := false |}.
Proof.
  assert (EA : mongo.answer memdb.handle
                 (mongo.FindOne createTimeout (byID id)) st
               = (Ok (storedDoc P id), st)).
  { cbn. unfold memdb.FindOne. rewrite reachable, last.
    rewrite (find_app_last _ _ _ fresh (matches_storedDoc P id)). reflexivity. }
  rewrite (getCarByID_decoded memdb.handle req st wellFormed EA).
  cbn [mongo.Decode]. rewrite unmarshal_storedDoc. reflexivity.
Qed.

Lemma updateCar_last (car : Car) :
  gin.bind req zeroCar = (car, None) ->
  exec memdb.handle req updateCar st =
    {| responses := [jsonResponse 200 (gin.OfCar (setID car id))];
       calls := [mongo.Called
                   (mongo.UpdateOne createTimeout (byID id) (updateDoc car))];
       store := {| memdb.docs := before ++ [storedDoc car id];
                   memdb.nextID := memdb.nextID st; memdb.down := None |};
       panicked := false |}.
Proof.
  intros EB.
  assert (EA : mongo.answer memdb.handle
                 (mongo.UpdateOne createTimeout (byID id) (updateDoc car)) st
               = (Ok {| mongo.MatchedCount := 1 |},
                  {| memdb.docs := before ++ [storedDoc car id];
                     memdb.nextID := memdb.nextID st; memdb.down := None |})).
  { cbn [mongo.answer memdb.handle memdb.answer].
    rewrite memdb_UpdateOne_updateDoc, reachable, last.
    rewrite (updateFirst_last _ _ _ _ fresh (matches_storedDoc P id)).
    reflexivity. }
  rewrite (updateCar_updated memdb.handle req st wellFormed EB EA). reflexivity.
Qed.

Lemma deleteCar_last :
  exec memdb.handle req deleteCar st =
    {| responses := [{| gin.code := 204; gin.body := None |}];
       calls := [mongo.Called (mongo.DeleteOne createTimeout (byID id))];
       store := {| memdb.docs := before; memdb.nextID := memdb.nextID st;
                   memdb.down := None |};
       panicked := false |}.
Proof.
  assert (EA : mongo.answer memdb.handle
                 (mongo.DeleteOne createTimeout (byID id)) st
               = (Ok {| mongo.DeletedCount := 1 |},
                  {| memdb.docs := before; memdb.nextID := memdb.nextID st;
                     memdb.down := None |})).
  { cbn. unfold memdb.DeleteOne. rewrite reachable, last.
    rewrite (deleteFirst_last _ _ _ fresh (matches_storedDoc P id)).
    reflexivity. }
  rewrite (deleteCar_deleted memdb.handle req st wellFormed EA). reflexivity.
Qed.

End OnTheCollection.

Lemma idParam_of_Hex (req : gin.Request) (id : primitive.ObjectID) :
  gin.param "id" (gin.params req) = primitive.Hex id -> idParam req = Ok id.
Proof. unfold idParam. intros ->. apply ObjectIDFromHex_Hex. Qed.

(** X9: after a create answered 201, an update of the created identifier
    with payload [P2] is answered 200, and a following get is answered 200
    with exactly the make, model, year and price of [P2] under the same
    identifier: the update overwrites, it does not merge. *)
Theorem create_update_get_returns_update :
  forall (st : memdb.State) (req1 req2 req3 : gin.Request)
         (P1 P2 created : Car),
    gin.bind req1 zeroCar = (P1, None) ->
    let r1 := exec memdb.handle req1 addCar st in
    responses r1 = [jsonResponse http.StatusCreated (gin.OfCar created)] ->
    gin.param "id" (gin.params req2) = primitive.Hex (ID created) ->
    gin.bind req2 zeroCar = (P2, None) ->
    gin.param "id" (gin.params req3) = primitive.Hex (ID created) ->
    let r2 := exec memdb.handle req2 updateCar (store r1) in
    let r3 := exec memdb.handle req3 getCarByID (store r2) in
    let updated :=
      mkCar (ID created) (Make P2) (Model P2) (Year P2) (Price P2) in
    responses r2 = [jsonResponse http.StatusOK (gin.OfCar updated)] /\
    responses r3 = [jsonResponse http.StatusOK (gin.OfCar updated)].
Proof.
  intros st req1 req2 req3 P1 P2 created EB1 r1 H201 Hid2 EB2 Hid3. subst r1.
  destruct (addCar_created st req1 EB1 H201) as [_ [Hd [Hx [Hdown _]]]].
  apply idParam_of_Hex in Hid2, Hid3. cbv zeta.
  rewrite (@updateCar_last _ _ _ Hdown Hid2 _ _ Hd Hx _ EB2).
  cbn [responses store].
  split; [reflexivity|].
  match goal with
  | |- context [exec memdb.handle req3 getCarByID ?s] =>
      rewrite (@getCarByID_last s req3 (ID created) eq_refl Hid3
                 (memdb.docs st) P2 eq_refl Hx)
  end.
  reflexivity.
Qed.

Lemma create_update_get_returns_update_witness :
  let req1 := request "" (objectBody corolla2020) in
  let req2 := request (primitive.Hex oid1) (objectBody [FYear 2021]) in
  let req3 := request (primitive.Hex oid1) badBody in
  let r1 := exec memdb.handle req1 addCar memdb.empty in
  let r2 := exec memdb.handle req2 updateCar (store r1) in
  gin.bind req1 zeroCar = (fold_left assign corolla2020 zeroCar, None) /\
  gin.bind req2 zeroCar = (fold_left assign [FYear 2021] zeroCar, None) /\
  responses (exec memdb.handle req3 getCarByID (store r2)) =
    [jsonResponse 200 (gin.OfCar (mkCar oid1 "" "" 2021 (S754_zero false)))].
Proof.
  cbv zeta. split; [reflexivity | split; [reflexivity |]].
  exact (proj2 (@create_update_get_returns_update memdb.empty
                  (request "" (objectBody corolla2020))
                  (request (primitive.Hex oid1) (objectBody [FYear 2021]))
                  (request (primitive.Hex oid1) badBody)
                  _ _ (setID (fold_left assign corolla2020 zeroCar) oid1)
                  eq_refl eq_refl eq_refl eq_refl eq_refl)).
Defined.

(** X10: after a create answered 201, a delete of the created identifier
    is answered 204 and leaves exactly the documents that were stored before
    the create, and a following get of that identifier is answered 404. *)
Theorem create_delete_get_is_not_found :
  forall (st : memdb.State) (req1 req2 req3 : gin.Request) (P created : Car),
    gin.bind req1 zeroCar = (P, None) ->
    let r1 := exec memdb.handle req1 addCar st in
    responses r1 = [jsonResponse http.StatusCreated (gin.OfCar created)] ->
    gin.param "id" (gin.params req2) = primitive.Hex (ID created) ->
    gin.param "id" (gin.params req3) = primitive.Hex (ID created) ->
    let r2 := exec memdb.handle req2 deleteCar (store r1) in
    let r3 := exec memdb.handle req3 getCarByID (store r2) in
    responses r2 = [{| gin.code := http.StatusNoContent; gin.body := None |}] /\
    memdb.docs (store r2) = memdb.docs st /\
    responses r3 = [jsonResponse http.StatusNotFound (errorBody "Car not found")].
Proof.
  intros st req1 req2 req3 P created EB1 r1 H201 Hid2 Hid3. subst r1.
  destruct (addCar_created st req1 EB1 H201) as [_ [Hd [Hx [Hdown _]]]].
  apply idParam_of_Hex in Hid2, Hid3. cbv zeta.
  rewrite (@deleteCar_last _ _ _ Hdown Hid2 _ _ Hd Hx).
  cbn [responses store memdb.docs].
  split; [reflexivity | split; [reflexivity |]].
  match goal with
  | |- context [exec memdb.handle req3 getCarByID ?s] =>
      rewrite (@getCarByID_absent s req3 (ID created) eq_refl Hid3 Hx)
  end.
  reflexivity.
Qed.

Lemma create_delete_get_is_not_found_witness :
  let req1 := request "" (objectBody corolla2020) in
  let req2 := request (primitive.Hex oid1) badBody in
  let r1 := exec memdb.handle req1 addCar memdb.empty in
  let r2 := exec memdb.handle req2 deleteCar (store r1) in
  gin.bind req1 zeroCar = (fold_left assign corolla2020 zeroCar, None) /\
  memdb.docs (store r2) = [] /\
  codes (exec memdb.handle req2 getCarByID (store r2)) = [404%Z].
Proof.
  cbv zeta. split; [reflexivity|].
  pose proof (@create_delete_get_is_not_found memdb.empty
                (request "" (objectBody corolla2020))
                (request (primitive.Hex oid1) badBody)
                (request (primitive.Hex oid1) badBody)
                _ (setID (fold_left assign corolla2020 zeroCar) oid1)
                eq_refl eq_refl eq_refl eq_refl) as H.
  cbv zeta in H. destruct H as [_ [H2 H3]].
  split; [exact H2|]. unfold codes. rewrite H3. reflexivity.
Defined.

Lemma decodeAll_written (cars : list Car) :
  memdb.decodeAll (map (fun car => storedDoc car (ID car)) cars) [] = Ok cars.
Proof.
  induction cars as [|car cars IH]; [reflexivity|].
  cbn [map memdb.decodeAll tl]. rewrite unmarshal_storedDoc, IH.
  destruct car. reflexivity.
Qed.

(** X11: on a reachable collection that holds the documents the service
    wrote for [cars], a list request after a create answered 201 is
    answered 200 with [cars] followed by the created Car; the client
    receives that list as body, or no body when a listed price is NaN or
    infinite. *)
Theorem create_then_list_appends :
  forall (st : memdb.State) (req1 req2 : gin.Request) (P created : Car)
         (cars : list Car),
    gin.bind req1 zeroCar = (P, None) ->
    let r1 := exec memdb.handle req1 addCar st in
    responses r1 = [jsonResponse http.StatusCreated (gin.OfCar created)] ->
    memdb.docs st = map (fun car => storedDoc car (ID car)) cars ->
    let r2 := exec memdb.handle req2 getAllCars (store r1) in
    responses r2 =
      [jsonResponse http.StatusOK (gin.OfCars (Some (cars ++ [created])))] /\
    map sent (responses r2) =
      [(http.StatusOK,
        if forallb (fun car => finite (Price car)) (cars ++ [created])
        then Some (gin.OfCars (Some (cars ++ [created]))) else None)].
Proof.
  intros st req1 req2 P created cars EB r1 H201 Hw r2. subst r1 r2.
  assert (Hdec : memdb.decodeAll (memdb.docs st) [] = Ok cars).
  { rewrite Hw. apply decodeAll_written. }
  destruct (addCar_created st req1 EB H201) as [Hc [Hd [_ [Hdown _]]]].
  pose proof (decodeAll_last _ _ Hdec (unmarshal_storedDoc P (ID created)))
    as Hall.
  rewrite <- Hd, <- Hc in Hall.
  assert (Hr : responses (exec memdb.handle req2 getAllCars
                            (store (exec memdb.handle req1 addCar st))) =
               [jsonResponse http.StatusOK
                  (gin.OfCars (Some (cars ++ [created])))]).
  { destruct (cars ++ [created]) as [|car0 cars0] eqn:E.
    - destruct cars; discriminate.
    - apply (getAllCars_lists_every_record _ req2 Hdown Hall). }
  split; [exact Hr|]. rewrite Hr. cbn [map]. unfold sent.
  cbn [gin.code gin.body jsonResponse encodable].
  destruct (forallb (fun car => finite (Price car)) (cars ++ [created]));
    reflexivity.
Qed.

Lemma create_then_list_appends_witness :
  let req := request "" (objectBody corolla2021) in
  gin.bind req zeroCar = (fold_left assign corolla2021 zeroCar, None) /\
  memdb.docs oneCorolla =
    map (fun car => storedDoc car (ID car))
      [mkCar oid1 "Toyota" "Corolla" 2020 price19999_99] /\
  responses (exec memdb.handle req getAllCars
               (store (exec memdb.handle req addCar oneCorolla))) =
    [jsonResponse 200
       (gin.OfCars
          (Some [mkCar oid1 "Toyota" "Corolla" 2020 price19999_99;
                 mkCar (memdb.NewObjectID 2) "Toyota" "Corolla" 2021
                   price18999_99]))].
Proof.
  cbv zeta. split; [reflexivity | split; [reflexivity|]].
  exact (proj1 (@create_then_list_appends oneCorolla
           (request "" (objectBody corolla2021))
           (request "" (objectBody corolla2021))
           _ (setID (fold_left assign corolla2021 zeroCar) (memdb.NewObjectID 2))
           [mkCar oid1 "Toyota" "Corolla" 2020 price19999_99]
           eq_refl eq_refl eq_refl)).
Defined.

(** X12: on a reachable collection, a well-formed identifier that matches
    no document is answered 404 by get, update and delete, and none of them
    changes the collection: update does not insert the missing record. *)
Theorem unknown_identifier_is_not_found :
  forall (st : memdb.State) (req : gin.Request) (id : primitive.ObjectID),
    memdb.down st = None ->
    idParam req = Ok id ->
    existsb (memdb.matches (byID id)) (memdb.docs st) = false ->
    let run p := exec memdb.handle req p st in
    (codes (run getCarByID) = [http.StatusNotFound] /\
     store (run getCarByID) = st) /\
    (codes (run deleteCar) = [http.StatusNotFound] /\
     store (run deleteCar) = st) /\
    (forall car, gin.bind req zeroCar = (car, None) ->
       codes (run updateCar) = [http.StatusNotFound] /\
       store (run updateCar) = st).
Proof.
  intros st req id D E X. cbv zeta. split; [|split].
  - rewrite (@getCarByID_absent _ _ _ D E X). split; reflexivity.
  - rewrite (@deleteCar_absent _ _ _ D E X). split; reflexivity.
  - intros car EB. rewrite (@updateCar_absent _ _ _ D E _ EB X).
    split; reflexivity.
Qed.

Lemma unknown_identifier_is_not_found_witness :
  let req := request (primitive.Hex (memdb.NewObjectID 7))
               (objectBody corolla2021) in
  idParam req = Ok (memdb.NewObjectID 7) /\
  codes (exec memdb.handle req updateCar oneCorolla) = [404%Z] /\
  store (exec memdb.handle req updateCar oneCorolla) = oneCorolla.
Proof.
  cbv zeta. split; [reflexivity|].
  exact (proj2 (proj2 (@unknown_identifier_is_not_found oneCorolla
                  (request (primitive.Hex (memdb.NewObjectID 7))
                     (objectBody corolla2021))
                  (memdb.NewObjectID 7) eq_refl eq_refl eq_refl))
               _ eq_refl).
Defined.

(** X14: the create handler does not clear an identifier sent in the body.
    On a reachable collection a payload with a non-zero ID is stored under
    that very ID and answered 201 with it when no document has it yet, and
    is answered 500, leaving the documents as they are, when one has. *)
Theorem create_keeps_a_supplied_id :
  forall (st : memdb.State) (req : gin.Request) (P : Car),
    memdb.down st = None ->
    gin.bind req zeroCar = (P, None) ->
    primitive.IsZero (ID P) = false ->
    let r := exec memdb.handle req addCar st in
    if existsb (memdb.matches (byID (ID P))) (memdb.docs st)
    then codes r = [http.StatusInternalServerError] /\
         memdb.docs (store r) = memdb.docs st
    else responses r = [jsonResponse http.StatusCreated (gin.OfCar P)] /\
         memdb.docs (store r) = memdb.docs st ++ [storedDoc P (ID P)].
Proof.
  intros st req P D EB Z. cbv zeta.
  destruct (memdb.InsertOne P st) as [res st'] eqn:EI.
  assert (EA : mongo.answer memdb.handle (mongo.InsertOne createTimeout P) st
               = (res, st')) by exact EI.
  rewrite (addCar_inserted memdb.handle req st EB EA).
  unfold memdb.InsertOne in EI. rewrite D, lookup_id_marshalCar in EI.
  unfold bson.marshalCar, byID in *. rewrite Z in EI. cbn [app] in EI.
  destruct (existsb _ (memdb.docs st)); injection EI as <- <-.
  - split; reflexivity.
  - cbn [mongo.InsertedID store memdb.docs]. destruct P. split; reflexivity.
Qed.

Lemma create_keeps_a_supplied_id_witness :
  let req := request "" (objectBody (FId oid1 :: corolla2021)) in
  let r := exec memdb.handle req addCar in
  primitive.IsZero oid1 = false /\
  ID (fst (gin.bind req zeroCar)) = oid1 /\
  codes (r oneCorolla) = [500%Z] /\
  codes (r memdb.empty) = [201%Z] /\
  ids (store (r memdb.empty)) = [Some (bson.VObjectID oid1)].
Proof.
  cbv zeta. split; [reflexivity | split; [reflexivity |]].
  pose proof (@create_keeps_a_supplied_id oneCorolla
                (request "" (objectBody (FId oid1 :: corolla2021))) _
                eq_refl eq_refl eq_refl) as H1.
  pose proof (@create_keeps_a_supplied_id memdb.empty
                (request "" (objectBody (FId oid1 :: corolla2021))) _
                eq_refl eq_refl eq_refl) as H2.
  cbv zeta in H1, H2. cbn [existsb memdb.docs memdb.empty] in H2.
  destruct H2 as [H2 H3]. split; [exact (proj1 H1) | split].
  - unfold codes. rewrite H2. reflexivity.
  - unfold ids. rewrite H3. reflexivity.
Defined.

(** ** Invariants of the collection under the handlers *)

Lemma deleteFirst_first (filter : bson.M) (ds ds' : list bson.M) :
  memdb.deleteFirst filter ds = Some ds' ->
  exists l1 d l2,
    ds = l1 ++ d :: l2 /\ ds' = l1 ++ l2 /\
    memdb.matches filter d = true /\
    existsb (memdb.matches filter) l1 = false.
Proof.
  revert ds'. induction ds as [|d ds IH]; cbn; intros ds' E; [discriminate|].
  destruct (memdb.matches filter d) eqn:M.
  - injection E as <-. exists [], d, ds. repeat split; assumption.
  - destruct (memdb.deleteFirst filter ds) as [ds0|]; [|discriminate].
    injection E as <-. destruct (IH _ eq_refl) as [l1 [d0 [l2 [-> [-> [H1 H2]]]]]].
    exists (d :: l1), d0, l2. cbn. rewrite M. repeat split; assumption.
Qed.

Lemma matches_byID_lookup (id : primitive.ObjectID) (d : bson.M) :
  memdb.matches (byID id) d = true <->
  bson.lookup "_id" d = Some (bson.VObjectID id).
Proof.
  unfold byID. rewrite matches_byID.
  destruct (bson.lookup "_id" d) as [[id'| | | |]|]; split; intros H;
    try discriminate.
  - apply oid_eqb_eq in H. subst. reflexivity.
  - injection H as <-. apply oid_eqb_refl.
Qed.

(** What [DeleteOne] by identifier does to the collection. *)
Lemma memdb_DeleteOne_cases (id : primitive.ObjectID) (st : memdb.State) :
  match memdb.DeleteOne (byID id) st with
  | (Err _, st') => st' = st
  | (Ok res, st') =>
      (mongo.DeletedCount res = 0%Z /\ st' = st) \/
      (mongo.DeletedCount res = 1%Z /\ memdb.down st' = None /\
       exists l1 d l2,
         memdb.docs st = l1 ++ d :: l2 /\ memdb.docs st' = l1 ++ l2 /\
         bson.lookup "_id" d = Some (bson.VObjectID id) /\
         existsb (memdb.matches (byID id)) l1 = false)
  end.
Proof.
  unfold memdb.DeleteOne. destruct (memdb.down st); [reflexivity|].
  destruct (memdb.deleteFirst (byID id) (memdb.docs st)) as [ds|] eqn:Dl.
  - right. destruct (deleteFirst_first _ _ Dl) as [l1 [d [l2 [E1 [E2 [M X]]]]]].
    cbn [mongo.DeletedCount memdb.down memdb.docs].
    split; [reflexivity | split; [reflexivity |]].
    exists l1, d, l2. repeat split; try assumption.
    apply matches_byID_lookup, M.
  - left. split; reflexivity.
Qed.

(** X13: a delete answered 204 removed exactly one document, the first one
    stored under the path identifier, and kept every other document in
    place; a delete answered anything else left the collection as it
    was. *)
Theorem deleteCar_removes_exactly_one :
  forall (st : memdb.State) (req : gin.Request),
    let r := exec memdb.handle req deleteCar st in
    (codes r = [http.StatusNoContent] ->
     exists id l1 d l2,
       idParam req = Ok id /\
       memdb.docs st = l1 ++ d :: l2 /\
       memdb.docs (store r) = l1 ++ l2 /\
       bson.lookup "_id" d = Some (bson.VObjectID id) /\
       existsb (memdb.matches (byID id)) l1 = false) /\
    (codes r <> [http.StatusNoContent] -> store r = st).
Proof.
  intros st req. cbv zeta. rewrite deleteCar_run.
  destruct (idParam req) as [id|e].
  2:{ split; [discriminate | reflexivity]. }
  cbn [mongo.answer memdb.handle memdb.answer].
  pose proof (memdb_DeleteOne_cases id st) as H.
  destruct (memdb.DeleteOne (byID id) st) as [[[n]|e] st']; cbn [store].
  - cbn [mongo.DeletedCount] in *.
    destruct H as [[-> ->] | [-> [_ [l1 [d [l2 H]]]]]]; unfold codes; cbn.
    + split; [discriminate | reflexivity].
    + split; [intros _ | intros F; exfalso; apply F; reflexivity].
      exists id, l1, d, l2. split; [reflexivity | exact H].
  - subst st'. split; [discriminate | reflexivity].
Qed.

Lemma deleteCar_removes_exactly_one_witness :
  let r := exec memdb.handle (request (primitive.Hex oid1) badBody) deleteCar
             oneCorolla in
  codes r = [204%Z] /\
  exists l1 d l2, memdb.docs oneCorolla = l1 ++ d :: l2 /\
                  memdb.docs (store r) = l1 ++ l2.
Proof.
  cbv zeta. split; [reflexivity|].
  destruct (proj1 (deleteCar_removes_exactly_one oneCorolla
                     (request (primitive.Hex oid1) badBody)) eq_refl)
    as [id [l1 [d [l2 [_ [H1 [H2 _]]]]]]].
  exists l1, d, l2. split; assumption.
Defined.

Lemma NoDup_snoc {A : Type} (l : list A) (x : A) :
  NoDup l -> ~ In x l -> NoDup (l ++ [x]).
Proof.
  induction 1 as [|a l Ha Hl IH]; cbn; intros Hx.
  - constructor; [intros [] | constructor].
  - constructor.
    + rewrite in_app_iff. cbn. intros [H | [H | []]]; [auto | subst; auto].
    + apply IH. auto.
Qed.

Lemma memdb_insert_failed (st st' : memdb.State) (car : Car) (e : error) :
  memdb.InsertOne car st = (Err e, st') -> memdb.docs st' = memdb.docs st.
Proof.
  unfold memdb.InsertOne. destruct (memdb.down st).
  - intros E. injection E as _ <-. reflexivity.
  - destruct (bson.lookup "_id" (bson.marshalCar car));
      match goal with
      | |- context [existsb ?p ?l] => destruct (existsb p l)
      end; intros E; inversion E; reflexivity.
Qed.

Lemma reads_keep_documents (st : memdb.State) (req : gin.Request) :
  memdb.docs (store (exec memdb.handle req getAllCars st)) = memdb.docs st /\
  memdb.docs (store (exec memdb.handle req getCarByID st)) = memdb.docs st.
Proof.
  split.
  - rewrite getAllCars_run. cbn [mongo.answer memdb.handle memdb.answer].
    unfold memdb.Find. destruct (memdb.down st) eqn:D; [reflexivity|].
    unfold memdb.All. rewrite D.
    destruct (memdb.decodeAll _ _) as [[|car cars]|e]; reflexivity.
  - rewrite getCarByID_run. destruct (idParam req); [|reflexivity].
    cbn [mongo.answer memdb.handle memdb.answer]. unfold memdb.FindOne.
    destruct (memdb.down st); [reflexivity|].
    destruct (List.find _ _); reflexivity.
Qed.

(** X15: every handler keeps the identifiers of the collection unique: if
    every document has an ObjectID as [_id] and no two share one before a
    request, the same holds after it. *)
Theorem handlers_keep_ids_unique :
  forall (st : memdb.State) (req : gin.Request) (p : Prog unit),
    In p handlers ->
    uniqueIDs st ->
    uniqueIDs (store (exec memdb.handle req p st)).
Proof.
  intros st req p Hp [l [Hl Hnd]]. unfold handlers in Hp. cbn [In] in Hp.
  destruct Hp as [<- | [<- | [<- | [<- | [<- | []]]]]].
  - exists l. unfold ids in *.
    rewrite (proj1 (reads_keep_documents st req)). auto.
  - rewrite addCar_run. destruct (gin.bind req zeroCar) as [car [e|]].
    { exists l. auto. }
    cbn [mongo.answer memdb.handle memdb.answer].
    destruct (memdb.InsertOne car st) as [[res|e] st'] eqn:EI; cbn [store].
    + destruct (memdb_insert_shape _ _ EI) as [id [_ [Hd [Hx _]]]].
      exists (l ++ [id]). unfold ids in *. rewrite Hd, !map_app, Hl.
      split; [reflexivity|]. apply NoDup_snoc; [exact Hnd|].
      intros Hin.
      assert (Hin' : In (Some (bson.VObjectID id))
                       (map (bson.lookup "_id") (memdb.docs st))).
      { rewrite Hl. apply in_map_iff. exists id. auto. }
      apply in_map_iff in Hin'. destruct Hin' as [d [Hk Hd']].
      apply matches_byID_lookup in Hk.
      assert (Ht : existsb (memdb.matches (byID id)) (memdb.docs st) = true).
      { apply existsb_exists. exists d. auto. }
      rewrite Ht in Hx. discriminate.
    + exists l. unfold ids in *. rewrite (memdb_insert_failed _ _ EI). auto.
  - exists l. unfold ids in *.
    rewrite (proj2 (reads_keep_documents st req)). auto.
  - exists l. split; [|exact Hnd]. rewrite <- Hl. unfold ids.
    apply Forall2_sameExcept_ids, updateCar_frame.
  - rewrite deleteCar_run. destruct (idParam req) as [id|e].
    2:{ exists l. auto. }
    cbn [mongo.answer memdb.handle memdb.answer].
    pose proof (memdb_DeleteOne_cases id st) as H.
    destruct (memdb.DeleteOne (byID id) st) as [[res|e] st']; cbn [store].
    2:{ subst st'. exists l. auto. }
    destruct H as [[_ ->] | [_ [_ [l1 [d [l2 [H1 [H2 _]]]]]]]].
    { exists l. auto. }
    unfold ids in *. rewrite H1, map_app in Hl. cbn [map] in Hl.
    symmetry in Hl. apply map_eq_app in Hl.
    destruct Hl as [la [lb' [-> [Ha Hb]]]].
    apply map_eq_cons in Hb. destruct Hb as [x [lb [-> [_ Hb]]]].
    exists (la ++ lb). unfold ids. rewrite H2, !map_app, Ha, Hb.
    split; [reflexivity|]. apply (NoDup_remove_1 _ _ _ Hnd).
Qed.

Lemma handlers_keep_ids_unique_witness :
  uniqueIDs oneCorolla /\ In addCar handlers /\
  uniqueIDs (store (exec memdb.handle (request "" (objectBody corolla2021))
                      addCar oneCorolla)).
Proof.
  assert (H1 : uniqueIDs oneCorolla).
  { exists [oid1]. split; [reflexivity|].
    constructor; [intros [] | constructor]. }
  assert (H2 : In addCar handlers) by (cbn; auto).
  split; [exact H1 | split; [exact H2 |]].
  exact (handlers_keep_ids_unique (request "" (objectBody corolla2021)) H2 H1).
Defined.

(** ** Start-up *)

(** Goes through the members of a list given in full, dropping those that
    cannot be the one at hand. *)
Ltac in_cases H :=
  cbn [In] in H;
  repeat match type of H with
         | _ \/ _ => destruct H as [H | H]; [try discriminate H|]
         | False => destruct H
         end.

(** X16: [Setup] gives a handler set only when the connection and the
    ping both succeeded, and then on collection [cars] of database
    [carstore] of the connected client; it returns the error of the call
    that failed, and it never pings when the connection failed. *)
Theorem Setup_outcome :
  forall srv : startup.Server,
    let r := fst (startup.Setup srv) in
    let cs := snd (startup.Setup srv) in
    (forall hd, r = Ok hd ->
       exists cl,
         startup.connect srv startup.URI = Ok cl /\
         startup.ping srv cl = None /\
         startup.collection hd =
           {| startup.client := cl; startup.database := "carstore";
              startup.name := "cars" |}) /\
    (forall e, r = Err e ->
       startup.connect srv startup.URI = Err e \/
       exists cl, startup.connect srv startup.URI = Ok cl /\
                  startup.ping srv cl = Some e) /\
    (forall cl, In (startup.Ping cl) cs ->
       startup.connect srv startup.URI = Ok cl) /\
    (forall e, startup.connect srv startup.URI = Err e ->
       cs = [startup.Connect startup.URI]).
Proof.
  intros srv. cbv zeta. unfold startup.Setup.
  destruct (startup.connect srv startup.URI) as [cl|e0] eqn:EC.
  - destruct (startup.ping srv cl) as [e1|] eqn:EP; cbn [fst snd].
    + split; [discriminate|]. split.
      * intros e E. injection E as <-. right. exists cl. auto.
      * split; [|discriminate].
        intros cl' [H | [H | []]]; [discriminate | injection H as <-; reflexivity].
    + split.
      * intros hd E. injection E as <-. exists cl. auto.
      * split; [discriminate|]. split; [|discriminate].
        intros cl' [H | [H | []]]; [discriminate | injection H as <-; reflexivity].
  - cbn [fst snd]. split; [discriminate|]. split.
    + intros e E. injection E as <-. left. reflexivity.
    + split; [|reflexivity]. intros cl [H | []]. discriminate.
Qed.

Lemma Setup_outcome_witness :
  fst (startup.Setup startup.silent) = Err "server selection timeout" /\
  exists cl, startup.connect startup.silent startup.URI = Ok cl /\
             startup.ping startup.silent cl = Some "server selection timeout".
Proof.
  split; [reflexivity|].
  destruct (proj1 (proj2 (Setup_outcome startup.silent)) _ eq_refl)
    as [H | H]; [discriminate H | exact H].
Defined.

(** X17: [main] starts serving only after a successful connection and
    ping, on [:8080], with all five routes registered on the one handler
    set before it; when [Setup] fails it logs the error fatally, registers
    no route and never serves.  Every registered method is one the CORS
    configuration allows. *)
Theorem main_serves_only_when_connected :
  forall srv : startup.Server,
    let evs := startup.main srv in
    (forall addr, In (startup.Run addr) evs ->
       addr = ":8080" /\
       exists cl hd,
         startup.connect srv startup.URI = Ok cl /\
         startup.ping srv cl = None /\
         fst (startup.Setup srv) = Ok hd /\
         exists before,
           evs = before ++ map (startup.Handle hd) startup.routes ++
                 [startup.Println "Server starting on http://localhost:8080";
                  startup.Run ":8080"]) /\
    (forall msg e, In (startup.Fatal msg e) evs ->
       fst (startup.Setup srv) = Err e /\
       (forall addr, ~ In (startup.Run addr) evs) /\
       (forall hd rt, ~ In (startup.Handle hd rt) evs)) /\
    (forall rt, In rt startup.routes ->
       In (startup.method rt) (startup.AllowMethods startup.corsConfig)).
Proof.
  intros srv. cbv zeta. unfold startup.main, startup.Setup.
  destruct (startup.connect srv startup.URI) as [cl|e0] eqn:EC;
    [destruct (startup.ping srv cl) as [e1|] eqn:EP|];
    cbn [fst snd map app startup.routes];
    (split; [|split; [|intros rt H; unfold startup.routes in H; in_cases H;
                       subst rt; cbn; tauto]]).
  - intros addr H. in_cases H.
  - intros msg e H. in_cases H. injection H as _ <-.
    split; [reflexivity|].
    split; [intros addr H | intros hd rt H]; in_cases H.
  - intros addr H. in_cases H. injection H as <-. split; [reflexivity|].
    exists cl. eexists. repeat split; try assumption.
    eexists [_; _; _; _]. reflexivity.
  - intros msg e H. in_cases H.
  - intros addr H. in_cases H.
  - intros msg e H. in_cases H. injection H as _ <-.
    split; [reflexivity|].
    split; [intros addr H | intros hd rt H]; in_cases H.
Qed.

Lemma main_serves_only_when_connected_witness :
  In (startup.Run ":8080") (startup.main startup.up) /\
  In (startup.Fatal "Failed to connect to MongoDB:" "connection refused")
    (startup.main startup.refusing) /\
  fst (startup.Setup startup.refusing) = Err "connection refused" /\
  exists cl, startup.connect startup.up startup.URI = Ok cl.
Proof.
  assert (H1 : In (startup.Run ":8080") (startup.main startup.up)).
  { cbn. tauto. }
  assert (H2 : In (startup.Fatal "Failed to connect to MongoDB:"
                     "connection refused") (startup.main startup.refusing)).
  { cbn. tauto. }
  split; [exact H1 | split; [exact H2 | split]].
  - exact (proj1 (proj1 (proj2 (main_serves_only_when_connected
                                  startup.refusing)) _ _ H2)).
  - destruct (proj1 (main_serves_only_when_connected startup.up) _ H1)
      as [_ [cl [hd [H _]]]].
    exists cl. exact H.
Defined.

(** ** Routing *)

Lemma split_not_nil (s : string) : startup.split s <> [].
Proof.
  destruct s as [|ch s]; cbn; [discriminate|].
  destruct (Ascii.eqb ch "/"); [discriminate|].
  destruct (startup.split s); discriminate.
Qed.

Lemma split_single (s x : string) : startup.split s = [x] -> x = s.
Proof.
  revert x. induction s as [|ch s IH]; cbn; intros x E.
  - injection E as <-. reflexivity.
  - destruct (Ascii.eqb ch "/").
    + injection E as _ E. destruct (split_not_nil _ E).
    + destruct (startup.split s) as [|seg rest] eqn:Es.
      * destruct (split_not_nil _ Es).
      * injection E as <- ->. rewrite (IH seg eq_refl). reflexivity.
Qed.

Lemma split_car (seg : string) :
  startup.split ("/car/" ++ seg) = "" :: "car" :: startup.split seg.
Proof. reflexivity. Qed.

Lemma eqb_segment (seg : string) : seg <> "" -> String.eqb seg "" = false.
Proof. intros H. apply String.eqb_neq. exact H. Qed.

Lemma match_cars (l : list string) (ps : list (string * string)) :
  startup.matchSegments [""; "cars"] l = Some ps -> ps = [] /\ l = [""; "cars"].
Proof.
  destruct l as [|s1 [|s2 [|s3 l]]]; cbn [startup.matchSegments];
    try discriminate;
    destruct (String.eqb "" s1) eqn:E1; try discriminate;
    destruct (String.eqb "cars" s2) eqn:E2; try discriminate.
  apply String.eqb_eq in E1, E2. subst. intros H. injection H as <-. auto.
Qed.

Lemma match_car_id (l : list string) (ps : list (string * string)) :
  startup.matchSegments [""; "car"; ":id"] l = Some ps ->
  exists seg, seg <> "" /\ ps = [("id", seg)] /\ l = [""; "car"; seg].
Proof.
  destruct l as [|s1 [|s2 [|s3 [|s4 l]]]]; cbn [startup.matchSegments];
    try discriminate;
    destruct (String.eqb "" s1) eqn:E1; try discriminate;
    destruct (String.eqb "car" s2) eqn:E2; try discriminate;
    destruct (String.eqb s3 "") eqn:E3; try discriminate.
  apply String.eqb_eq in E1, E2. apply String.eqb_neq in E3. subst.
  cbn. intros H. injection H as <-. exists s3. auto.
Qed.

(** Decides the comparisons of string literals in the goal. *)
Ltac eval_eqb :=
  repeat match goal with
         | |- context [String.eqb ?a ?b] =>
             let v := eval vm_compute in (String.eqb a b) in
             match v with
             | true => change (String.eqb a b) with true
             | false => change (String.eqb a b) with false
             end
         end;
  cbn [startup.matchSegments startup.dispatchIn option_map].

(** Follows the router through its registrations for a path
    [/car/<seg>]. *)
Ltac route Hne Hsplit :=
  unfold startup.dispatch, startup.routes;
  cbn [startup.dispatchIn startup.method startup.pattern startup.handler];
  change (startup.split "/cars") with [""; "cars"];
  change (startup.split "/car/:id") with [""; "car"; ":id"];
  rewrite ?split_car, ?Hsplit; cbn [startup.matchSegments];
  eval_eqb; rewrite ?Hne; eval_eqb.

(** X18: the router runs the list handler for [GET /cars], the create
    handler for [POST /cars], and for [/car/<segment>] the get, update and
    delete handlers under GET, PUT and DELETE, each with the segment bound
    to the path parameter [id]. *)
Theorem dispatch_by_method_and_path :
  startup.dispatch "GET" "/cars" = Some (getAllCars, []) /\
  startup.dispatch "POST" "/cars" = Some (addCar, []) /\
  forall seg, isSegment seg ->
    startup.dispatch "GET" ("/car/" ++ seg) = Some (getCarByID, [("id", seg)]) /\
    startup.dispatch "PUT" ("/car/" ++ seg) = Some (updateCar, [("id", seg)]) /\
    startup.dispatch "DELETE" ("/car/" ++ seg) = Some (deleteCar, [("id", seg)]).
Proof.
  split; [reflexivity | split; [reflexivity |]].
  intros seg [Hne Hsplit]. apply eqb_segment in Hne.
  split; [|split]; route Hne Hsplit; reflexivity.
Qed.

Lemma dispatch_by_method_and_path_witness :
  isSegment "not-a-valid-id" /\
  startup.dispatch "DELETE" "/car/not-a-valid-id"
    = Some (deleteCar, [("id", "not-a-valid-id")]).
Proof.
  assert (H : isSegment "not-a-valid-id").
  { split; [discriminate | reflexivity]. }
  split; [exact H|].
  exact (proj2 (proj2 (proj2 (proj2 dispatch_by_method_and_path) _ H))).
Defined.

Lemma join_split (s : string) : join (startup.split s) = s.
Proof.
  induction s as [|ch s IH]; [reflexivity|]. cbn [startup.split].
  destruct (Ascii.eqb ch "/") eqn:E.
  - apply Ascii.eqb_eq in E. subst ch.
    destruct (startup.split s) as [|seg rest] eqn:Es;
      [destruct (split_not_nil _ Es)|].
    cbn [join] in *. rewrite IH. reflexivity.
  - destruct (startup.split s) as [|seg rest] eqn:Es;
      [destruct (split_not_nil _ Es)|].
    destruct rest; cbn [join] in *; rewrite <- IH; reflexivity.
Qed.

Lemma path_of_segments (path : string) (l : list string) :
  startup.split path = l -> path = join l.
Proof. intros <-. symmetry. apply join_split. Qed.

Lemma car_path (path seg : string) :
  seg <> "" -> startup.split path = [""; "car"; seg] ->
  isSegment seg /\ path = ("/car/" ++ seg)%string.
Proof.
  intros Hne E. pose proof (path_of_segments _ E) as Hp. cbn in Hp.
  split; [|exact Hp]. split; [exact Hne|].
  rewrite Hp in E.
  change (startup.split ("/car/" ++ seg) = [""; "car"; seg]) in E.
  rewrite split_car in E. injection E as E. exact E.
Qed.

(** The registrations that can have matched, by the segments of the
    path. *)
Lemma dispatch_inv (m path : string) (p : Prog unit)
    (ps : list (string * string)) :
  startup.dispatch m path = Some (p, ps) ->
  (startup.split path = [""; "cars"] /\ ps = [] /\
   ((m = "GET" /\ p = getAllCars) \/ (m = "POST" /\ p = addCar))) \/
  (exists seg,
     seg <> "" /\ startup.split path = [""; "car"; seg] /\
     ps = [("id", seg)] /\
     ((m = "GET" /\ p = getCarByID) \/ (m = "PUT" /\ p = updateCar) \/
      (m = "DELETE" /\ p = deleteCar))).
Proof.
  unfold startup.dispatch, startup.routes.
  cbn [startup.dispatchIn startup.method startup.pattern startup.handler].
  change (startup.split "/cars") with [""; "cars"].
  change (startup.split "/car/:id") with [""; "car"; ":id"].
  destruct (startup.matchSegments [""; "cars"] (startup.split path))
    as [ps1|] eqn:M1;
    [apply match_cars in M1; destruct M1 as [-> M1]|];
  (destruct (startup.matchSegments [""; "car"; ":id"] (startup.split path))
     as [ps2|] eqn:M2;
   [apply match_car_id in M2; destruct M2 as [seg [Hne [-> M2]]]|]);
  try (rewrite M1 in M2; discriminate M2);
  (destruct (String.eqb "GET" m) eqn:EG; [apply String.eqb_eq in EG|]);
  (destruct (String.eqb "POST" m) eqn:EP; [apply String.eqb_eq in EP|]);
  (destruct (String.eqb "PUT" m) eqn:EU; [apply String.eqb_eq in EU|]);
  (destruct (String.eqb "DELETE" m) eqn:ED; [apply String.eqb_eq in ED|]);
  intros H; try discriminate H; try congruence;
  injection H as <- <-; subst m;
  solve [ left; repeat split; auto
        | right; exists seg; repeat split; auto ].
Qed.

(** X19: whatever the request line, a handler that reads the path
    parameter [id] is only ever run with [id] bound to a non-empty segment
    of the path, and the list and create handlers are run without
    parameters; so [c.Param("id")] never falls back to the empty string. *)
Theorem dispatched_handlers_have_their_parameter :
  forall (m path : string) (p : Prog unit) (ps : list (string * string)),
    startup.dispatch m path = Some (p, ps) ->
    (ps = [] /\ path = "/cars" /\
     ((m = "GET" /\ p = getAllCars) \/ (m = "POST" /\ p = addCar))) \/
    (exists seg,
       isSegment seg /\ path = ("/car/" ++ seg)%string /\ ps = [("id", seg)] /\
       gin.param "id" ps = seg /\
       ((m = "GET" /\ p = getCarByID) \/ (m = "PUT" /\ p = updateCar) \/
        (m = "DELETE" /\ p = deleteCar))).
Proof.
  intros m path p ps H.
  destruct (dispatch_inv _ _ H) as [[Hs [-> Hh]] | [seg [Hne [Hs [-> Hh]]]]].
  - left. apply path_of_segments in Hs. cbn in Hs. auto.
  - right. exists seg. destruct (@car_path _ _ Hne Hs) as [Hseg Hpath].
    split; [exact Hseg|]. split; [exact Hpath|]. split; [reflexivity|].
    split; [reflexivity | exact Hh].
Qed.

Lemma dispatched_handlers_have_their_parameter_witness :
  startup.dispatch "PUT" "/car/abc" = Some (updateCar, [("id", "abc")]) /\
  exists seg, isSegment seg /\ gin.param "id" [("id", "abc")] = seg.
Proof.
  assert (H : startup.dispatch "PUT" "/car/abc"
              = Some (updateCar, [("id", "abc")])) by reflexivity.
  split; [exact H|].
  destruct (dispatched_handlers_have_their_parameter _ _ H)
    as [[E _] | [seg [Hs [_ [_ [Hp _]]]]]]; [discriminate E|].
  exists seg. split; assumption.
Defined.

(** ** Requests through the router *)

Lemma hex2_single (b : byte) (rest : string) :
  startup.split rest = [rest] ->
  startup.split (primitive.hex2 b rest) = [primitive.hex2 b rest].
Proof. intros E. destruct b; cbn; rewrite E; reflexivity. Qed.

Lemma Hex_isSegment (id : primitive.ObjectID) : isSegment (primitive.Hex id).
Proof.
  destruct id as [[[[[[[[[[[b0 b1] b2] b3] b4] b5] b6] b7] b8] b9] b10] b11].
  split; [discriminate|]. unfold primitive.Hex.
  repeat apply hex2_single. reflexivity.
Qed.

(** X20: a request for [/car/<s>] whose [<s>] is not a well-formed
    identifier, if the router runs a handler for it at all, is answered 400
    "Invalid car ID" without any storage call, under every method and for
    any collection. *)
Theorem malformed_path_identifier_is_rejected :
  forall (S : Type) (h : mongo.Collection S) (m s : string)
         (body : Car -> Car * option error) (st : S) (r : Run S) (e : error),
    primitive.ObjectIDFromHex s = Err e ->
    serve h m ("/car/" ++ s) body st = Some r ->
    responses r = [jsonResponse http.StatusBadRequest (errorBody "Invalid car ID")] /\
    calls r = [] /\ store r = st.
Proof.
  intros S h m s body st r e Hs. unfold serve.
  destruct (startup.dispatch m ("/car/" ++ s)) as [[p ps]|] eqn:D;
    [|discriminate].
  intros E. injection E as <-.
  destruct (dispatch_inv _ _ D) as [[Hp _] | [seg [_ [Hp [-> Hh]]]]];
    rewrite split_car in Hp.
  - discriminate Hp.
  - injection Hp as Hp. apply split_single in Hp. subst seg.
    assert (Hid : idParam {| gin.params := [("id", s)]; gin.bind := body |}
                  = Err e) by exact Hs.
    destruct Hh as [[_ ->] | [[_ ->] | [_ ->]]].
    + rewrite (getCarByID_malformed h _ st Hid). repeat split.
    + rewrite (updateCar_malformed h _ st Hid). repeat split.
    + rewrite (deleteCar_malformed h _ st Hid). repeat split.
Qed.

Lemma malformed_path_identifier_is_rejected_witness :
  primitive.ObjectIDFromHex "not-a-valid-id" = Err primitive.ErrInvalidHex /\
  exists r,
    serve memdb.handle "PUT" "/car/not-a-valid-id" (objectBody corolla2021)
      oneCorolla = Some r /\
    calls r = [] /\ store r = oneCorolla.
Proof.
  split; [reflexivity|]. eexists. split; [reflexivity|].
  exact (proj2 (@malformed_path_identifier_is_rejected _ memdb.handle "PUT"
                  "not-a-valid-id" (objectBody corolla2021) oneCorolla _ _
                  eq_refl eq_refl)).
Defined.

(** X21: when [POST /cars] is answered 201 with a Car, [GET /car/<id>] with
    the hex form of that Car's ID reaches the get handler and is answered
    200 with the same Car, and [DELETE /car/<id>] is answered 204. *)
Theorem created_car_is_served_under_its_id :
  forall (st : memdb.State) (body body' : Car -> Car * option error)
         (P created : Car) (r1 : Run memdb.State),
    body zeroCar = (P, None) ->
    serve memdb.handle "POST" "/cars" body st = Some r1 ->
    responses r1 = [jsonResponse http.StatusCreated (gin.OfCar created)] ->
    let path := ("/car/" ++ primitive.Hex (ID created))%string in
    (exists r2,
       serve memdb.handle "GET" path body' (store r1) = Some r2 /\
       responses r2 = [jsonResponse http.StatusOK (gin.OfCar created)]) /\
    (exists r3,
       serve memdb.handle "DELETE" path body' (store r1) = Some r3 /\
       responses r3 = [{| gin.code := http.StatusNoContent; gin.body := None |}] /\
       memdb.docs (store r3) = memdb.docs st).
Proof.
  intros st body body' P created r1 EB E1 H201. cbv zeta.
  assert (Er : r1 = exec memdb.handle {| gin.params := []; gin.bind := body |}
                     addCar st).
  { unfold serve in E1.
    change (startup.dispatch "POST" "/cars")
      with (Some (addCar, @nil (string * string))) in E1.
    congruence. }
  subst r1.
  destruct (@addCar_created st {| gin.params := []; gin.bind := body |} P
              created EB H201) as [Hc [Hd [Hx [Hdown _]]]].
  destruct (Hex_isSegment (ID created)) as [Hne Hsplit].
  apply eqb_segment in Hne.
  assert (DG : startup.dispatch "GET" ("/car/" ++ primitive.Hex (ID created))
               = Some (getCarByID, [("id", primitive.Hex (ID created))]))
    by (route Hne Hsplit; reflexivity).
  assert (DD : startup.dispatch "DELETE" ("/car/" ++ primitive.Hex (ID created))
               = Some (deleteCar, [("id", primitive.Hex (ID created))]))
    by (route Hne Hsplit; reflexivity).
  assert (Hid : idParam {| gin.params := [("id", primitive.Hex (ID created))];
                           gin.bind := body' |} = Ok (ID created))
    by apply ObjectIDFromHex_Hex.
  unfold serve. rewrite DG, DD. split; eexists; (split; [reflexivity|]).
  - rewrite (@getCarByID_last _ _ (ID created) Hdown Hid _ _ Hd Hx).
    cbn [responses]. rewrite <- Hc. reflexivity.
  - rewrite (@deleteCar_last _ _ (ID created) Hdown Hid _ _ Hd Hx).
    split; reflexivity.
Qed.

Lemma created_car_is_served_under_its_id_witness :
  objectBody corolla2020 zeroCar = (fold_left assign corolla2020 zeroCar, None) /\
  exists r2,
    serve memdb.handle "GET" "/car/000000000000000000000001" badBody oneCorolla
      = Some r2 /\
    responses r2 =
      [jsonResponse 200
         (gin.OfCar (mkCar oid1 "Toyota" "Corolla" 2020 price19999_99))].
Proof.
  split; [reflexivity|].
  exact (proj1 (@created_car_is_served_under_its_id memdb.empty
                  (objectBody corolla2020) badBody _
                  (mkCar oid1 "Toyota" "Corolla" 2020 price19999_99) _
                  eq_refl eq_refl eq_refl)).
Defined.

(** ** More on identifiers *)

(** A delete answered 204, seen from the collection. *)
Lemma deleteCar_204 (st : memdb.State) (req : gin.Request) :
  codes (exec memdb.handle req deleteCar st) = [http.StatusNoContent] ->
  memdb.down (store (exec memdb.handle req deleteCar st)) = None /\
  exists id l1 d l2,
    idParam req = Ok id /\
    memdb.docs st = l1 ++ d :: l2 /\
    memdb.docs (store (exec memdb.handle req deleteCar st)) = l1 ++ l2 /\
    bson.lookup "_id" d = Some (bson.VObjectID id) /\
    existsb (memdb.matches (byID id)) l1 = false.
Proof.
  rewrite deleteCar_run. destruct (idParam req) as [id|e]; [|discriminate].
  cbn [mongo.answer memdb.handle memdb.answer].
  pose proof (memdb_DeleteOne_cases id st) as H.
  destruct (memdb.DeleteOne (byID id) st) as [[[n]|e] st'];
    cbn [store mongo.DeletedCount] in *; [|discriminate].
  destruct H as [[-> ->] | [-> [Hd [l1 [d [l2 H]]]]]]; [discriminate|].
  intros _. split; [exact Hd|]. exists id, l1, d, l2.
  split; [reflexivity | exact H].
Qed.

(** X23: on a collection with unique identifiers, once a delete was
    answered 204 a get for the same path identifier is answered 404, and so
    is a second delete. *)
Theorem delete_then_get_is_not_found :
  forall (st : memdb.State) (req req' : gin.Request),
    uniqueIDs st ->
    gin.param "id" (gin.params req') = gin.param "id" (gin.params req) ->
    let r := exec memdb.handle req deleteCar st in
    codes r = [http.StatusNoContent] ->
    codes (exec memdb.handle req' getCarByID (store r)) = [http.StatusNotFound] /\
    codes (exec memdb.handle req' deleteCar (store r)) = [http.StatusNotFound].
Proof.
  intros st req req' [l [Hl Hnd]] Hp r H204. subst r.
  destruct (deleteCar_204 st req H204)
    as [Hdown [id [l1 [d [l2 [Hid [H1 [H2 [Hk Hx1]]]]]]]]].
  assert (Hid' : idParam req' = Ok id).
  { unfold idParam in *. rewrite Hp. exact Hid. }
  assert (Hx : existsb (memdb.matches (byID id))
                 (memdb.docs (store (exec memdb.handle req deleteCar st)))
               = false).
  { rewrite H2, existsb_app, Hx1. cbn [orb].
    destruct (existsb (memdb.matches (byID id)) l2) eqn:X2; [|reflexivity].
    exfalso. apply existsb_exists in X2. destruct X2 as [d' [Hin Hm]].
    apply matches_byID_lookup in Hm.
    unfold ids in Hl. rewrite H1, map_app in Hl. cbn [map] in Hl.
    symmetry in Hl. apply map_eq_app in Hl.
    destruct Hl as [la [lb' [-> [Ha Hb]]]].
    apply map_eq_cons in Hb. destruct Hb as [x [lb [-> [Hxd Hb]]]].
    rewrite Hk in Hxd. injection Hxd as ->.
    apply NoDup_remove_2 in Hnd. apply Hnd. apply in_or_app. right.
    assert (Hin' : In (Some (bson.VObjectID id)) (map (bson.lookup "_id") l2)).
    { apply in_map_iff. exists d'. auto. }
    rewrite <- Hb in Hin'. apply in_map_iff in Hin'.
    destruct Hin' as [y [Hy Hyin]]. injection Hy as ->. exact Hyin. }
  rewrite (@getCarByID_absent _ _ _ Hdown Hid' Hx).
  rewrite (@deleteCar_absent _ _ _ Hdown Hid' Hx).
  split; reflexivity.
Qed.

Lemma delete_then_get_is_not_found_witness :
  let req := request (primitive.Hex oid1) badBody in
  let r := exec memdb.handle req deleteCar oneCorolla in
  uniqueIDs oneCorolla /\ codes r = [204%Z] /\
  codes (exec memdb.handle req getCarByID (store r)) = [404%Z].
Proof.
  cbv zeta.
  assert (H1 : uniqueIDs oneCorolla).
  { exists [oid1]. split; [reflexivity|].
    constructor; [intros [] | constructor]. }
  split; [exact H1 | split; [reflexivity|]].
  exact (proj1 (@delete_then_get_is_not_found oneCorolla
                  (request (primitive.Hex oid1) badBody)
                  (request (primitive.Hex oid1) badBody)
                  H1 eq_refl eq_refl)).
Defined.
